(** * turftopic: the shared model contract ([turftopic/base.py])

    A shallow embedding of [ContextualModel] and of [remove_whitespace],
    together with the properties of its reporting routines.

    Conventions of the embedding.
    - Weights and scores are exact rationals ([Q]).  The routines only
      negate, compare, index and print them, so every finite float is
      covered; NaN is outside the model.
    - A numpy vector is a [list Q], a matrix the list of its rows.
    - A Python [str] is a [string]; its characters are the code points
      below 256.
    - A Python exception is a value of [Exn]; a call that may raise returns
      a [Result].
    - The learned attributes are a record [Self], the methods of a concrete
      model a record [Variant].  A routine that calls them runs in [M]: it
      threads the model and a log of the calls made, and may raise.
    - numpy's selection and sorting kernels are taken through the interface
      [Np.Kernels] with their documented contract [Np.Laws]: the order
      among equal keys is left open, as in numpy.  [RefNumpy] implements
      them, to run the routines on concrete inputs. *)

From Stdlib Require Import List String Ascii Bool Arith ZArith QArith Qabs Lia.
From Stdlib Require Import Permutation Sorted DecimalString.
Import ListNotations.

Local Open Scope string_scope.
Local Open Scope Z_scope.

Set Implicit Arguments.

(** ** Python values and exceptions *)

Module Py.

Inductive Exn : Type :=
| AttributeError
| NotFittedError
| IndexError
| ValueError (msg : string)
| OtherError (msg : string).

Inductive Result (A : Type) : Type :=
| Ok (a : A)
| Err (e : Exn).

Arguments Ok {A} a.
Arguments Err {A} e.

Definition bind {A B} (r : Result A) (f : A -> Result B) : Result B :=
  match r with
  | Ok a => f a
  | Err e => Err e
  end.

Fixpoint mapM {A B} (f : A -> Result B) (l : list A) : Result (list B) :=
  match l with
  | [] => Ok []
  | x :: xs =>
      match f x with
      | Ok y =>
          match mapM f xs with
          | Ok ys => Ok (y :: ys)
          | Err e => Err e
          end
      | Err e => Err e
      end
  end.

Definition is_ok {A} (r : Result A) : bool :=
  match r with Ok _ => true | Err _ => false end.

(** [l[:k]] for a Python or numpy sequence: a negative bound counts from
    the end. *)
Definition slice_to {A} (k : Z) (l : list A) : list A :=
  if k <? 0 then firstn (Z.to_nat (Z.of_nat (List.length l) + k)) l
  else firstn (Z.to_nat k) l.

(** [l[i]] for a non-negative index: [IndexError] out of range. *)
Definition getitem {A} (l : list A) (i : nat) : Result A :=
  match nth_error l i with
  | Some x => Ok x
  | None => Err IndexError
  end.

(** [a[idx]] with an integer index array. *)
Definition take {A} (l : list A) (idx : list nat) : Result (list A) :=
  mapM (getitem l) idx.

(** [f"{z}"] for an integer. *)
Definition str_of_Z (z : Z) : string :=
  NilZero.string_of_int (Z.to_int z).

(** [sep.join(parts)]. *)
Fixpoint join (sep : string) (parts : list string) : string :=
  match parts with
  | [] => ""
  | [p] => p
  | p :: ps => p ++ sep ++ join sep ps
  end.

(** [str.isspace] on the code points below 256. *)
Definition isspace (c : ascii) : bool :=
  let n := nat_of_ascii c in
  ((9 <=? n) && (n <=? 13) || (28 <=? n) && (n <=? 32)
   || (n =? 133) || (n =? 160))%nat.

Fixpoint lstrip (s : string) : string :=
  match s with
  | String c s' => if isspace c then lstrip s' else s
  | EmptyString => EmptyString
  end.

(** Drops the whitespace that ends the string. *)
Fixpoint rstrip (s : string) : string :=
  match s with
  | EmptyString => EmptyString
  | String c s' =>
      match rstrip s' with
      | EmptyString => if isspace c then EmptyString else String c EmptyString
      | r => String c r
      end
  end.

(** [s.strip()]. *)
Definition strip (s : string) : string := rstrip (lstrip s).

(** [s.split()]: the maximal runs of non-whitespace characters. *)
Fixpoint split (s : string) : list string :=
  match s with
  | EmptyString => []
  | String c s' =>
      if isspace c then split s'
      else
        match s' with
        | EmptyString => [String c EmptyString]
        | String c' _ =>
            if isspace c' then String c EmptyString :: split s'
            else
              match split s' with
              | w :: ws => String c w :: ws
              | [] => [String c EmptyString]
              end
        end
  end.

(** [list.index(x)] on a list of integers. *)
Fixpoint index_of (l : list Z) (x : Z) : Result nat :=
  match l with
  | [] => Err (ValueError (str_of_Z x ++ " is not in list"))
  | y :: ys =>
      if y =? x then Ok O
      else match index_of ys x with
           | Ok i => Ok (S i)
           | Err e => Err e
           end
  end.

(** [list(range(n))]. *)
Definition range (n : nat) : list Z := map Z.of_nat (seq 0 n).

(** Rounding of a non-negative rational to the nearest integer, ties to
    even: the rounding of Python's float formatting. *)
Definition round_half_even (q : Q) : Z :=
  let n := Qnum q in
  let d := Z.pos (Qden q) in
  let fl := n / d in
  let r2 := 2 * (n mod d) in
  if r2 <? d then fl
  else if d <? r2 then fl + 1
  else if Z.even fl then fl else fl + 1.

Definition two_digits (z : Z) : string :=
  if z <? 10 then "0" ++ str_of_Z z else str_of_Z z.

(** [f"{x:.2f}"]. *)
Definition format_2f (x : Q) : string :=
  let h := round_half_even (Qabs x * 100) in
  (if Qnum x <? 0 then "-" else "")
  ++ str_of_Z (h / 100) ++ "." ++ two_digits (h mod 100).

End Py.

Import Py.

Notation "x <- c1 ;; c2" := (Py.bind c1 (fun x => c2))
  (at level 61, c1 at next level, right associativity).

(** ** [remove_whitespace] *)

Definition remove_whitespace (text : string) : string :=
  join " " (split (strip text)).

(** ** numpy *)

Definition Vector := list Q.
Definition Matrix := list Vector.

Module Np.

(** The two kernels the model calls: the index permutation computed by
    [np.argpartition] for an in-range [kth], and the one computed by
    [np.argsort]. *)
Class Kernels : Type := {
  introselect : Vector -> nat -> list nat;
  sort_order : Vector -> list nat
}.

Definition at_ (a : Vector) (i : nat) : Q := nth i a 0%Q.
Definition ix (p : list nat) (i : nat) : nat := nth i p O.

(** numpy's documented contract.  [argpartition]: the element at [kth] is
    in its sorted position, smaller ones before it, larger ones behind it,
    in no promised order.  [argsort]: the indices that sort the array;
    the default kind is not stable. *)
Class Laws (K : Kernels) : Prop := {
  introselect_perm : forall a kth,
    (kth < List.length a)%nat ->
    Permutation (introselect a kth) (seq 0 (List.length a));
  introselect_low : forall a kth i,
    (kth < List.length a)%nat -> (i < kth)%nat ->
    (at_ a (ix (introselect a kth) i) <= at_ a (ix (introselect a kth) kth))%Q;
  introselect_high : forall a kth i,
    (kth < i)%nat -> (i < List.length a)%nat ->
    (at_ a (ix (introselect a kth) kth) <= at_ a (ix (introselect a kth) i))%Q;
  sort_order_perm : forall a,
    Permutation (sort_order a) (seq 0 (List.length a));
  sort_order_sorted : forall a i j,
    (i <= j)%nat -> (j < List.length a)%nat ->
    (at_ a (ix (sort_order a) i) <= at_ a (ix (sort_order a) j))%Q
}.

Definition kth_message (kth n : Z) : string :=
  "kth(=" ++ str_of_Z kth ++ ") out of bounds (" ++ str_of_Z n ++ ")".

(** [np.argpartition(a, kth)] on a vector: a negative [kth] counts from
    the end, and a [kth] outside a non-empty array is a [ValueError]. *)
Definition argpartition {K : Kernels} (a : Vector) (kth : Z)
  : Result (list nat) :=
  let n := Z.of_nat (List.length a) in
  let k := if kth <? 0 then kth + n else kth in
  if n =? 0 then Ok []
  else if (k <? 0) || (n <=? k) then Err (ValueError (kth_message k n))
  else Ok (introselect a (Z.to_nat k)).

(** [np.argpartition(m, kth)] on a matrix works along the last axis. *)
Definition argpartition_rows {K : Kernels} (m : Matrix) (kth : Z)
  : Result (list (list nat)) :=
  mapM (fun row => argpartition row kth) m.

(** [np.argsort(a)]. *)
Definition argsort {K : Kernels} (a : Vector) : list nat := sort_order a.

(** [-a]. *)
Definition neg (a : Vector) : Vector := map Qopp a.

(** [m[:, j]]: a negative [j] counts from the end. *)
Definition column (m : Matrix) (j : Z) : Result Vector :=
  mapM (fun row : Vector =>
          let n := Z.of_nat (List.length row) in
          let j' := if j <? 0 then j + n else j in
          if (j' <? 0) || (n <=? j') then Err IndexError
          else getitem row (Z.to_nat j')) m.

(** [np.squeeze(np.asarray(d))] for the distribution [transform] returns
    for one document: the one-row matrix becomes its row.  (A vector of
    more than one entry is its own squeeze; a single entry, which numpy
    squeezes to a scalar, is outside the model.) *)
Definition squeeze (m : Matrix) : Vector := List.concat m.

End Np.

(** ** The model object

    [Self] holds the learned attributes the base class reads; [Variant]
    holds the methods a concrete model supplies.  [transform] is optional:
    a model without it is transductive. *)

Record Vectorizer : Type := {
  (** [vectorizer.get_feature_names_out()] *)
  feature_names_out : Result (list string);
  (** [vectorizer.transform(corpus)] *)
  vectorize : list string -> Result Matrix
}.

Record Self : Type := {
  components_ : option Matrix;
  classes_ : option (list Z);
  vectorizer : Vectorizer
}.

Record Variant : Type := {
  transform : option (list string -> option Matrix -> Self -> Result Matrix);
  fit_transform : list string -> option Matrix -> Self -> Result Matrix * Self;
  (** [encoder_.encode(raw_documents)] *)
  encode : list string -> Result Matrix
}.

(** Reading an attribute that may be missing. *)
Definition attr {A} (a : option A) : Result A :=
  match a with
  | Some x => Ok x
  | None => Err AttributeError
  end.

Definition fitted (self : Self) : bool :=
  match components_ self with Some _ => true | None => false end.

(** ** Calls on the model: state, errors and the record of outside calls *)

Inductive Event : Type :=
| CallEncode
| CallTransform       (* [self.transform(...)] was evaluated *)
| CallFitTransform
| CallVectorize.

Record State : Type := {
  self_ : Self;
  log : list Event     (* oldest first *)
}.

Definition M (A : Type) : Type := State -> Result A * State.

Definition ret {A} (a : A) : M A := fun st => (Ok a, st).
Definition raise {A} (e : Exn) : M A := fun st => (Err e, st).
Definition lift {A} (r : Result A) : M A := fun st => (r, st).
Definition get_self : M Self := fun st => (Ok (self_ st), st).
Definition emit (ev : Event) : M unit :=
  fun st => (Ok tt, {| self_ := self_ st; log := (log st ++ [ev])%list |}).

Definition bindM {A B} (c : M A) (f : A -> M B) : M B :=
  fun st =>
    match c st with
    | (Ok a, st') => f a st'
    | (Err e, st') => (Err e, st')
    end.

Notation "x <~ c1 ;; c2" := (bindM c1 (fun x => c2))
  (at level 61, c1 at next level, right associativity).

(** [try: body except <caught>: handler] *)
Definition try_except {A} (body : M A) (caught : Exn -> bool) (handler : M A)
  : M A :=
  fun st =>
    match body st with
    | (Ok a, st') => (Ok a, st')
    | (Err e, st') => if caught e then handler st' else (Err e, st')
    end.

Definition is_AttributeError (e : Exn) : bool :=
  match e with AttributeError => true | _ => false end.

Definition is_AttributeError_or_NotFittedError (e : Exn) : bool :=
  match e with AttributeError | NotFittedError => true | _ => false end.

Definition start (self : Self) : State := {| self_ := self; log := [] |}.

Section Calls.

Variable v : Variant.

(** [self.transform(docs, embeddings=emb)]: the attribute lookup fails
    with [AttributeError] on a transductive model. *)
Definition call_transform (docs : list string) (emb : option Matrix)
  : M Matrix :=
  _ <~ emit CallTransform ;;
  match transform v with
  | None => raise AttributeError
  | Some f => fun st => (f docs emb (self_ st), st)
  end.

(** [self.fit_transform(docs, embeddings=emb)]: rewrites the learned
    attributes. *)
Definition call_fit_transform (docs : list string) (emb : option Matrix)
  : M Matrix :=
  _ <~ emit CallFitTransform ;;
  fun st =>
    let '(r, self') := fit_transform v docs emb (self_ st) in
    (r, {| self_ := self'; log := log st |}).

Definition encode_documents (raw_documents : list string) : M Matrix :=
  _ <~ emit CallEncode ;;
  lift (encode v raw_documents).

Definition fit (raw_documents : list string) (embeddings : option Matrix)
  : M Self :=
  _ <~ call_fit_transform raw_documents embeddings ;;
  get_self.

End Calls.

Definition get_vocab (self : Self) : Result (list string) :=
  feature_names_out (vectorizer self).

Definition get_feature_names_out (self : Self) : Result (list Z) :=
  components <- attr (components_ self) ;;
  let n_topics := List.length components in
  let classes :=
    match classes_ self with
    | Some c => c
    | None => range n_topics
    end in
  Ok classes.

(** ** Reporting routines *)

Definition newline : string := String "010"%char EmptyString.

Definition transductive_message (what : string) : string :=
  "Transductive methods cannot " ++ "infer topical content in documents."
  ++ newline ++ "Please pass a " ++ what ++ ".".

Definition no_input_message : string :=
  "You should either pass a text or a distribution.".

(** The naming of one topic, used by [topic_names] and
    [_topic_distribution]. *)
Definition name_of_topic (entry : Z * list (string * Q)) : string :=
  let '(topic_id, terms) := entry in
  let concat_words := join "_" (map fst terms) in
  str_of_Z topic_id ++ "_" ++ concat_words.

(** The text shown for a document in [_highest_ranking_docs]. *)
Definition shown_document (doc : string) : string :=
  let doc := remove_whitespace doc in
  if (300 <? String.length doc)%nat then substring 0 300 doc ++ "..."
  else doc.

(** The column of a topic in [_highest_ranking_docs]: its position in the
    learned label set when there is one, the id itself otherwise. *)
Definition resolve_topic (self : Self) (topic_id : Z) : Result Z :=
  match classes_ self with
  | Some classes => i <- index_of classes topic_id ;; Ok (Z.of_nat i)
  | None => Ok topic_id
  end.

Section Reporting.

Context {K : Np.Kernels}.

(** The body of the first loop of [get_topics]: the selected columns of
    one topic, reordered by decreasing importance. *)
Definition rank_selected (vocab : list string)
    (row : Vector * list nat) : Result (list string * Vector) :=
  let '(component, high) := row in
  importance <- take component high ;;
  high <- take high (Np.argsort (Np.neg importance)) ;;
  scores <- take component high ;;
  words <- take vocab high ;;
  Ok (words, scores).

Definition get_topics (self : Self) (top_k : Z)
  : Result (list (Z * list (string * Q))) :=
  components <- attr (components_ self) ;;
  let n_topics := List.length components in
  let classes :=
    match classes_ self with
    | Some c => c
    | None => range n_topics
    end in
  partitioned <- Np.argpartition_rows (map Np.neg components) top_k ;;
  let highest := map (slice_to top_k) partitioned in
  vocab <- get_vocab self ;;
  top_score <- mapM (rank_selected vocab) (combine components highest) ;;
  Ok (map (fun '(topic, (words, scores)) => (topic, combine words scores))
          (combine classes top_score)).

Definition topic_names (self : Self) : Result (list string) :=
  topic_desc <- get_topics self 4 ;;
  Ok (map name_of_topic topic_desc).

(** The rows of [_highest_ranking_docs] once the matrix is known. *)
Definition rank_documents (self : Self) (topic_id : Z)
    (raw_documents : list string) (document_topic_matrix : Matrix)
    (top_k : Z) : Result (list (list string)) :=
  topic_id <- resolve_topic self topic_id ;;
  let kth := Z.min top_k (Z.of_nat (List.length document_topic_matrix) - 1) in
  col <- Np.column document_topic_matrix topic_id ;;
  partitioned <- Np.argpartition (Np.neg col) kth ;;
  let highest := slice_to kth partitioned in
  selected <- take col highest ;;
  highest <- take highest (Np.argsort (Np.neg selected)) ;;
  scores <- take col highest ;;
  rows <- mapM (fun '(document_id, score) =>
                  doc <- getitem raw_documents document_id ;;
                  Ok [shown_document doc; format_2f score])
               (combine highest scores) ;;
  Ok (["Document"; "Score"] :: rows).

(** The rows of [_topic_distribution] once the distribution is known. *)
Definition rank_topics (self : Self) (topic_dist : Vector) (top_k : Z)
  : Result (list (list string)) :=
  topic_desc <- get_topics self 4 ;;
  let topic_names := map name_of_topic topic_desc in
  let highest := slice_to top_k (Np.argsort (Np.neg topic_dist)) in
  rows <- mapM (fun ind =>
                  score <- getitem topic_dist ind ;;
                  name <- getitem topic_names ind ;;
                  Ok [name; format_2f score])
               highest ;;
  Ok (["Topic name"; "Score"] :: rows).

Variable v : Variant.

Definition _highest_ranking_docs (topic_id : Z) (raw_documents : list string)
    (document_topic_matrix : option Matrix) (top_k : Z)
  : M (list (list string)) :=
  document_topic_matrix <~
    match document_topic_matrix with
    | None =>
        try_except (call_transform v raw_documents None)
          is_AttributeError
          (raise (ValueError (transductive_message "document_topic_matrix")))
    | Some m => ret m
    end ;;
  self <~ get_self ;;
  lift (rank_documents self topic_id raw_documents document_topic_matrix top_k).

(** [topic_dist], when passed, is the vector of shape [(n_topics)] of the
    docstring, which [np.squeeze] leaves as it is. *)
Definition _topic_distribution (text : option string)
    (topic_dist : option Vector) (top_k : Z) : M (list (list string)) :=
  topic_dist <~
    match topic_dist with
    | None =>
        match text with
        | None => raise (ValueError no_input_message)
        | Some text =>
            m <~ try_except (call_transform v [text] None)
                   is_AttributeError
                   (raise (ValueError (transductive_message "topic distribution"))) ;;
            ret (Np.squeeze m)
        end
    | Some d => ret d
    end ;;
  self <~ get_self ;;
  lift (rank_topics self topic_dist top_k).

End Reporting.

(** ** The topic data snapshot *)

(** The values stored in a [TopicData] dictionary. *)
Inductive Value : Type :=
| VNone
| VStrings (l : list string)
| VArray (m : Matrix)
| VCallable (f : list string -> option Matrix -> Self -> Result Matrix).

Definition TopicData : Type := list (string * Value).

Definition is_None (x : Value) : bool :=
  match x with VNone => true | _ => false end.

Section Builder.

Context {K : Np.Kernels}.
Variable v : Variant.

(** [getattr(self, "transform", None)] *)
Definition getattr_transform : Value :=
  match transform v with
  | Some f => VCallable f
  | None => VNone
  end.

(** The [try]/[except] of [prepare_topic_data]: [transform], and
    [fit_transform] when that raises [AttributeError] or
    [NotFittedError]. *)
Definition transform_or_fit (corpus : list string) (embeddings : Matrix)
  : M Matrix :=
  try_except (call_transform v corpus (Some embeddings))
    is_AttributeError_or_NotFittedError
    (call_fit_transform v corpus (Some embeddings)).

(** The snapshot, once embeddings and document-topic matrix are known. *)
Definition assemble (corpus : list string) (embeddings : Matrix)
    (document_topic_matrix : Matrix) : M TopicData :=
  dtm <~ (_ <~ emit CallVectorize ;;
          self <~ get_self ;;
          lift (vectorize (vectorizer self) corpus)) ;;
  self <~ get_self ;;
  vocab <~ lift (get_vocab self) ;;
  topic_term_matrix <~ lift (attr (components_ self)) ;;
  names <~ lift (topic_names self) ;;
  ret [ ("corpus", VStrings corpus);
        ("document_term_matrix", VArray dtm);
        ("vocab", VStrings vocab);
        ("document_topic_matrix", VArray document_topic_matrix);
        ("document_representation", VArray embeddings);
        ("topic_term_matrix", VArray topic_term_matrix);
        ("transform", getattr_transform);
        ("topic_names", VStrings names) ].

Definition prepare_topic_data (corpus : list string)
    (embeddings : option Matrix) : M TopicData :=
  embeddings <~ match embeddings with
                | None => encode_documents v corpus
                | Some e => ret e
                end ;;
  document_topic_matrix <~ transform_or_fit corpus embeddings ;;
  assemble corpus embeddings document_topic_matrix.

End Builder.

(** ** A reference implementation of the numpy kernels

    Insertion sort of the indices by key; it serves as [argsort] and, a
    sorted array being partitioned at every position, as [argpartition]. *)

Module RefNumpy.

Definition key_leb (a : Vector) (i j : nat) : bool :=
  Qle_bool (Np.at_ a i) (Np.at_ a j).

Fixpoint insert_by (a : Vector) (i : nat) (l : list nat) : list nat :=
  match l with
  | [] => [i]
  | j :: l' => if key_leb a i j then i :: l else j :: insert_by a i l'
  end.

Definition sort_indices (a : Vector) : list nat :=
  fold_right (insert_by a) [] (seq 0 (List.length a)).

#[export] Instance kernels : Np.Kernels := {
  Np.introselect := fun a _ => sort_indices a;
  Np.sort_order := sort_indices
}.

End RefNumpy.

(** ** The topics table and the batching helper of the tests *)

Section Tables.

Context {K : Np.Kernels}.

(** The cell of [_topics_table] that lists the terms of one topic. *)
Definition concat_words (show_scores : bool) (terms : list (string * Q))
  : string :=
  if show_scores then
    join ", " (map (fun '(word, importance) =>
                      word ++ "(" ++ format_2f importance ++ ")") terms)
  else
    join ", " (map (fun '(word, importance) => word) terms).

Definition _topics_table (self : Self) (top_k : Z) (show_scores : bool)
  : Result (list (list string)) :=
  topics <- get_topics self top_k ;;
  let columns := ["Topic ID"; "Top " ++ str_of_Z top_k ++ " Words"] in
  let rows := map (fun '(topic_id, terms) =>
                     [str_of_Z topic_id; concat_words show_scores terms])
                  topics in
  Ok (columns :: rows).

End Tables.

(** The loop of [batched] ([tests/test_integration.py]): it takes [n] items
    at a time until a batch comes out empty.  [fuel] bounds the number of
    rounds. *)
Fixpoint batched_loop {A} (fuel : nat) (n : nat) (it : list A)
  : list (list A) :=
  match fuel with
  | O => []
  | S fuel' =>
      match firstn n it with
      | [] => []
      | batch => batch :: batched_loop fuel' n (skipn n it)
      end
  end.

(** [batched(iterable, n)], its batches collected in a list. *)
Definition batched {A} (iterable : list A) (n : Z) : Result (list (list A)) :=
  if n <? 1 then Err (ValueError "n must be at least one")
  else Ok (batched_loop (S (List.length iterable)) (Z.to_nat n) iterable).

(** * Notions used in the statements *)

Section Notions.

Context {K : Np.Kernels}.

(** ** Selection and order *)

(** The first [k] indices of the partition of [-a] at [k]. *)
Definition selected (a : Vector) (k : nat) : list nat :=
  firstn k (Np.introselect (Np.neg a) k).

(** The selection [sel], reordered by the sort of its negated weights. *)
Definition reorder (a : Vector) (sel : list nat) : list nat :=
  map (Np.ix sel) (Np.argsort (Np.neg (map (Np.at_ a) sel))).

(** The final order of the [k] selected entries of a row or column. *)
Definition ranked (component : Vector) (k : nat) : list nat :=
  reorder component (selected component k).

Definition non_increasing (scores : Vector) : Prop :=
  forall i j, (i <= j)%nat -> (j < List.length scores)%nat ->
              (Np.at_ scores j <= Np.at_ scores i)%Q.

Definition strictly_decreasing (scores : Vector) : Prop :=
  forall i j, (i < j)%nat -> (j < List.length scores)%nat ->
              (Np.at_ scores j < Np.at_ scores i)%Q.

(** ** Topics *)

(** The terms reported for one topic row: the [k] selected columns in
    their final order, each with its word and its weight. *)
Definition top_terms (vocab : list string) (component : Vector) (k : nat)
  : list (string * Q) :=
  let high := ranked component k in
  combine (map (fun i => nth i vocab "") high) (map (Np.at_ component) high).

(** The topic ids [get_topics] and [get_feature_names_out] draw from. *)
Definition classes_of (self : Self) (n_topics : nat) : list Z :=
  match classes_ self with
  | Some c => c
  | None => range n_topics
  end.

(** What the spec asks of the terms of one topic, with "non-increasing"
    for the order of the weights. *)
Definition terms_ok (vocab : list string) (component : Vector) (k : nat)
    (terms : list (string * Q)) : Prop :=
  List.length terms = k
  /\ non_increasing (map snd terms)
  /\ NoDup (map fst terms)
  /\ Forall (fun ws => exists i, nth_error vocab i = Some (fst ws)
                                 /\ nth_error component i = Some (snd ws)) terms.

(** The name [topic_names] gives to an entry with four terms. *)
Definition four_word_name (entry : Z * list (string * Q)) (name : string)
  : Prop :=
  exists w1 w2 w3 w4,
    map fst (snd entry) = [w1; w2; w3; w4]
    /\ name = str_of_Z (fst entry) ++ "_" ++ w1 ++ "_" ++ w2 ++ "_" ++ w3
              ++ "_" ++ w4.

(** ** Documents *)

Definition docs_header : list string := ["Document"; "Score"].

(** The grid row of document [i] for the scores [col]. *)
Definition doc_row (raw_documents : list string) (col : Vector) (i : nat)
  : list string :=
  [shown_document (nth i raw_documents ""); format_2f (Np.at_ col i)].

(** The effective selection size of [_highest_ranking_docs]. *)
Definition effective_k (top_k : Z) (n_documents : nat) : nat :=
  Z.to_nat (Z.min top_k (Z.of_nat n_documents - 1)).

(** No whitespace character at all. *)
Fixpoint no_space (s : string) : bool :=
  match s with
  | EmptyString => true
  | String c s' => negb (isspace c) && no_space s'
  end.

Definition is_word (w : string) : Prop := w <> EmptyString /\ no_space w = true.

(** The only whitespace is the single space, never at an end and never
    twice in a row.  [after_space] tells that the previous character was a
    space, or that the string starts here. *)
Fixpoint single_spaced (after_space : bool) (s : string) : bool :=
  match s with
  | EmptyString => negb after_space
  | String c s' =>
      if isspace c then Ascii.eqb c " " && negb after_space && single_spaced true s'
      else single_spaced false s'
  end.

Definition normalized (s : string) : bool :=
  match s with
  | EmptyString => true
  | _ => single_spaced true s
  end.

(** The characters that are not whitespace, in order. *)
Definition non_space_chars (s : string) : list ascii :=
  filter (fun c => negb (isspace c)) (list_ascii_of_string s).

(** What a data row of [_highest_ranking_docs] shows of the document
    [doc]. *)
Definition shows (row : list string) (doc : string) : Prop :=
  hd "" row = shown_document doc
  /\ normalized (remove_whitespace doc) = true
  /\ non_space_chars (remove_whitespace doc) = non_space_chars doc
  /\ ((300 < String.length (remove_whitespace doc))%nat ->
      shown_document doc = substring 0 300 (remove_whitespace doc) ++ "..."
      /\ String.length (shown_document doc) = 303%nat)
  /\ ((String.length (remove_whitespace doc) <= 300)%nat ->
      shown_document doc = remove_whitespace doc).

(** ** Calls on the model *)

Definition is_model_call (ev : Event) : bool :=
  match ev with
  | CallTransform | CallFitTransform => true
  | _ => false
  end.

(** The calls to [transform] and [fit_transform], in order. *)
Definition model_calls (st : State) : list Event :=
  filter is_model_call (log st).

(** What evaluating [self.transform(corpus, embeddings=e)] yields. *)
Definition transform_attempt (v : Variant) (corpus : list string) (e : Matrix)
    (self : Self) : Result Matrix :=
  match transform v with
  | None => Err AttributeError
  | Some f => f corpus (Some e) self
  end.

(** The contract of a variant's [transform]: on an unfitted model it raises
    [NotFittedError] or [AttributeError], on a fitted one it raises
    neither. *)
Definition transform_tells_unfitted (v : Variant) (corpus : list string)
    (e : Matrix) (self : Self) : Prop :=
  forall f, transform v = Some f ->
    (fitted self = false ->
       f corpus (Some e) self = Err NotFittedError
       \/ f corpus (Some e) self = Err AttributeError)
    /\ (fitted self = true ->
          f corpus (Some e) self <> Err NotFittedError
          /\ f corpus (Some e) self <> Err AttributeError).

(** The state from which [prepare_topic_data] attempts [transform]. *)
Definition after_embeddings (embeddings : option Matrix) (st : State) : State :=
  {| self_ := self_ st;
     log := match embeddings with
            | None => (log st ++ [CallEncode])%list
            | Some _ => log st
            end |}.

(** Whether the [except] clause of [prepare_topic_data] catches the outcome
    of the attempt. *)
Definition falls_back (attempt : Result Matrix) : bool :=
  match attempt with
  | Err ex => is_AttributeError_or_NotFittedError ex
  | Ok _ => false
  end.

(** A call that leaves the learned state alone and calls at most
    [transform]. *)
Definition read_only {A} (c : M A) : Prop :=
  forall st,
    snd (c st) = st
    \/ snd (c st) = {| self_ := self_ st; log := (log st ++ [CallTransform])%list |}.

(** ** The snapshot *)

Definition topic_data_keys : list string :=
  ["corpus"; "document_term_matrix"; "vocab"; "document_topic_matrix";
   "document_representation"; "topic_term_matrix"; "transform"; "topic_names"].

Definition fields_ok (v : Variant) (res : TopicData) : Prop :=
  map fst res = topic_data_keys
  /\ forall key value,
      In (key, value) res ->
      (value = VNone <-> key = "transform" /\ transform v = None).

End Notions.

(** * Models and inputs of the examples *)

(** A fitted vectorizer with the given vocabulary. *)
Definition vectorizer_of (vocab : list string) : Vectorizer :=
  {| feature_names_out := Ok vocab;
     vectorize := fun corpus => Ok (map (fun _ => map (fun _ => 0%Q) vocab) corpus) |}.

Definition sale_vocab : list string := ["sale"; "price"; "item"].
Definition sale_row : Vector := [9 # 10; 5 # 10; 2 # 10]%Q.
Definition tie_row : Vector := [5 # 10; 5 # 10; 2 # 10]%Q.

(** A fitted model whose topic 0 is [sale_row]. *)
Definition sale_model (others : Matrix) : Self :=
  {| components_ := Some (sale_row :: others);
     classes_ := None;
     vectorizer := vectorizer_of sale_vocab |}.

(** A fitted model with one topic, two of its terms of equal weight. *)
Definition tie_model : Self :=
  {| components_ := Some [tie_row];
     classes_ := None;
     vectorizer := vectorizer_of sale_vocab |}.

(** A fitted model with two topics over four terms. *)
Definition four_term_model : Self :=
  {| components_ := Some [[4 # 10; 3 # 10; 2 # 10; 1 # 10];
                          [1 # 10; 2 # 10; 3 # 10; 4 # 10]]%Q;
     classes_ := None;
     vectorizer := vectorizer_of ["a"; "b"; "c"; "d"] |}.

(** A fitted model with two topics over six terms and a learned label set
    that holds the outlier id. *)
Definition six_term_model : Self :=
  {| components_ := Some [[6 # 10; 5 # 10; 4 # 10; 3 # 10; 2 # 10; 1 # 10];
                          [1 # 10; 2 # 10; 3 # 10; 4 # 10; 5 # 10; 6 # 10]]%Q;
     classes_ := Some [-1; 0];
     vectorizer := vectorizer_of ["a"; "b"; "c"; "d"; "e"; "f"] |}.

Definition unfitted_model : Self :=
  {| components_ := None;
     classes_ := None;
     vectorizer := {| feature_names_out := Err NotFittedError;
                      vectorize := fun _ => Err NotFittedError |} |}.

(** A variant without [transform]; its [fit_transform] keeps the learned
    state and spreads every document evenly over two topics. *)
Definition transductive_variant : Variant :=
  {| transform := None;
     fit_transform := fun docs _ self =>
       (Ok (map (fun _ => [1 # 2; 1 # 2]%Q) docs), self);
     encode := fun docs => Ok (map (fun _ => [0%Q]) docs) |}.

(** A variant with [transform]: inference needs a fitted model, and
    fitting learns two topics over six terms. *)
Definition inductive_variant : Variant :=
  {| transform := Some (fun docs _ self =>
                          if fitted self then Ok (map (fun _ => [1 # 2; 1 # 2]%Q) docs)
                          else Err NotFittedError);
     fit_transform := fun docs _ self =>
       (Ok (map (fun _ => [1 # 2; 1 # 2]%Q) docs),
        {| components_ := Some [[6 # 10; 5 # 10; 4 # 10; 3 # 10; 2 # 10; 1 # 10];
                                [1 # 10; 2 # 10; 3 # 10; 4 # 10; 5 # 10; 6 # 10]]%Q;
           classes_ := classes_ self;
           vectorizer := vectorizer_of ["a"; "b"; "c"; "d"; "e"; "f"] |});
     encode := fun docs => Ok (map (fun _ => [0%Q]) docs) |}.

(** A document of 350 characters, 348 of them spaces, and one of 352
    characters without any. *)
Definition spaced_document : string :=
  "a" ++ string_of_list_ascii (repeat " "%char 348) ++ "b".
Definition long_document : string :=
  string_of_list_ascii (repeat "x"%char 352).

(** * Notions used in the further properties *)

(** The number of terms [get_topics] keeps per topic for a [top_k] that
    numpy accepts: a negative [top_k] counts from the end of the row. *)
Definition term_count (top_k : Z) (vocab_size : nat) : nat :=
  Z.to_nat (if top_k <? 0 then top_k + Z.of_nat vocab_size else top_k).

(** No term left out of [terms] weighs more in [row] than a listed one. *)
Definition heaviest (vocab : list string) (row : Vector)
    (terms : list (string * Q)) : Prop :=
  forall j w s,
    nth_error vocab j = Some w ->
    ~ In w (map fst terms) ->
    In s (map snd terms) ->
    (Np.at_ row j <= s)%Q.

(** * Properties *)

(** ** The reference kernels satisfy numpy's contract *)

Lemma key_leb_total (a : Vector) (i j : nat) :
  RefNumpy.key_leb a i j = false -> RefNumpy.key_leb a j i = true.
Proof.
  unfold RefNumpy.key_leb. intros H.
  apply Qle_bool_iff.
  destruct (Qlt_le_dec (Np.at_ a i) (Np.at_ a j)) as [Hlt | Hle]; [| exact Hle].
  apply Qlt_le_weak in Hlt. apply Qle_bool_iff in Hlt. congruence.
Qed.

Lemma key_leb_trans (a : Vector) (i j k : nat) :
  RefNumpy.key_leb a i j = true -> RefNumpy.key_leb a j k = true ->
  RefNumpy.key_leb a i k = true.
Proof.
  unfold RefNumpy.key_leb. rewrite !Qle_bool_iff. apply Qle_trans.
Qed.

Lemma insert_by_perm (a : Vector) (i : nat) (l : list nat) :
  Permutation (RefNumpy.insert_by a i l) (i :: l).
Proof.
  induction l as [| j l IH]; simpl.
  - apply Permutation_refl.
  - destruct (RefNumpy.key_leb a i j).
    + apply Permutation_refl.
    + eapply perm_trans; [apply perm_skip, IH | apply perm_swap].
Qed.

Lemma insert_by_sorted (a : Vector) (i : nat) (l : list nat) :
  StronglySorted (fun x y => RefNumpy.key_leb a x y = true) l ->
  StronglySorted (fun x y => RefNumpy.key_leb a x y = true)
    (RefNumpy.insert_by a i l).
Proof.
  induction 1 as [| j l Hs IH Hall]; simpl.
  - repeat constructor.
  - destruct (RefNumpy.key_leb a i j) eqn:E.
    + constructor; [constructor; assumption |].
      constructor; [exact E |].
      eapply Forall_impl; [| exact Hall].
      intros k Hk. eapply key_leb_trans; eassumption.
    + constructor; [exact IH |].
      eapply Permutation_Forall; [apply Permutation_sym, insert_by_perm |].
      constructor; [apply key_leb_total, E | exact Hall].
Qed.

Lemma fold_insert_perm (a : Vector) (l : list nat) :
  Permutation (fold_right (RefNumpy.insert_by a) [] l) l.
Proof.
  induction l as [| i l IH]; simpl.
  - apply perm_nil.
  - eapply perm_trans; [apply insert_by_perm | apply perm_skip, IH].
Qed.

Lemma fold_insert_sorted (a : Vector) (l : list nat) :
  StronglySorted (fun x y => RefNumpy.key_leb a x y = true)
    (fold_right (RefNumpy.insert_by a) [] l).
Proof.
  induction l as [| i l IH]; simpl.
  - constructor.
  - apply insert_by_sorted, IH.
Qed.

Lemma StronglySorted_nth {A} (R : A -> A -> Prop) (d : A) (l : list A) :
  (forall x, R x x) ->
  StronglySorted R l ->
  forall i j, (i <= j)%nat -> (j < List.length l)%nat ->
              R (nth i l d) (nth j l d).
Proof.
  intros Hrefl Hs. induction Hs as [| x l Hs IH Hall]; intros i j Hij Hj.
  - simpl in Hj. lia.
  - destruct i as [| i], j as [| j]; simpl in *; try lia.
    + apply Hrefl.
    + rewrite Forall_forall in Hall. apply Hall, nth_In. lia.
    + apply IH; lia.
Qed.

Lemma sort_indices_sorted (a : Vector) (i j : nat) :
  (i <= j)%nat -> (j < List.length a)%nat ->
  (Np.at_ a (Np.ix (RefNumpy.sort_indices a) i)
   <= Np.at_ a (Np.ix (RefNumpy.sort_indices a) j))%Q.
Proof.
  intros Hij Hj. apply Qle_bool_iff.
  change (RefNumpy.key_leb a (Np.ix (RefNumpy.sort_indices a) i)
                             (Np.ix (RefNumpy.sort_indices a) j) = true).
  unfold Np.ix.
  apply (StronglySorted_nth (R := fun x y => RefNumpy.key_leb a x y = true)).
  - intros x. unfold RefNumpy.key_leb. apply Qle_bool_iff, Qle_refl.
  - apply fold_insert_sorted.
  - exact Hij.
  - unfold RefNumpy.sort_indices.
    rewrite (Permutation_length (fold_insert_perm a _)), length_seq. exact Hj.
Qed.

#[export] Instance ref_laws : Np.Laws RefNumpy.kernels.
Proof.
  constructor; simpl; intros.
  - apply fold_insert_perm.
  - apply sort_indices_sorted; lia.
  - apply sort_indices_sorted; lia.
  - apply fold_insert_perm.
  - apply sort_indices_sorted; assumption.
Qed.

(** ** Lists, indexing and error propagation *)

Lemma mapM_Forall2 {A B} (f : A -> Result B) (l : list A) (ys : list B) :
  mapM f l = Ok ys -> Forall2 (fun x y => f x = Ok y) l ys.
Proof.
  revert ys. induction l as [| x l IH]; simpl; intros ys H.
  - inversion H. constructor.
  - destruct (f x) as [y |] eqn:Ex; [| discriminate].
    destruct (mapM f l) as [ys' |]; [| discriminate].
    inversion H; subst. constructor; auto.
Qed.

Lemma mapM_length {A B} (f : A -> Result B) (l : list A) (ys : list B) :
  mapM f l = Ok ys -> List.length ys = List.length l.
Proof.
  intros H. apply mapM_Forall2, Forall2_length in H. congruence.
Qed.

Lemma mapM_ok {A B} (f : A -> Result B) (g : A -> B) (l : list A) :
  Forall (fun x => f x = Ok (g x)) l -> mapM f l = Ok (map g l).
Proof.
  induction 1 as [| x l Hx _ IH]; simpl.
  - reflexivity.
  - rewrite Hx, IH. reflexivity.
Qed.

Lemma getitem_ok {A} (l : list A) (i : nat) (d : A) :
  (i < List.length l)%nat -> getitem l i = Ok (nth i l d).
Proof.
  intros H. unfold getitem. rewrite (nth_error_nth' l d H). reflexivity.
Qed.

Lemma getitem_inv {A} (l : list A) (i : nat) (x : A) :
  getitem l i = Ok x -> nth_error l i = Some x.
Proof.
  unfold getitem. destruct (nth_error l i); intros H; inversion H; reflexivity.
Qed.

Lemma take_ok {A} (l : list A) (idx : list nat) (d : A) :
  Forall (fun i => (i < List.length l)%nat) idx ->
  take l idx = Ok (map (fun i => nth i l d) idx).
Proof.
  intros H. unfold take. apply mapM_ok.
  eapply Forall_impl; [| exact H]. intros i Hi. apply getitem_ok, Hi.
Qed.

Lemma take_inv {A} (l : list A) (idx : list nat) (ys : list A) (d : A) :
  take l idx = Ok ys ->
  Forall (fun i => (i < List.length l)%nat) idx
  /\ ys = map (fun i => nth i l d) idx.
Proof.
  unfold take. intros H. apply mapM_Forall2 in H.
  induction H as [| i y idx ys Hi _ [IH1 IH2]].
  - split; [constructor | reflexivity].
  - apply getitem_inv in Hi.
    assert (Hlt : (i < List.length l)%nat)
      by (apply nth_error_Some; congruence).
    split; [constructor; assumption |].
    simpl. rewrite <- IH2. f_equal.
    rewrite (nth_error_nth' l d Hlt) in Hi. congruence.
Qed.

Lemma map_nth_seq {A} (l : list A) (d : A) :
  map (fun i => nth i l d) (seq 0 (List.length l)) = l.
Proof.
  apply (nth_ext _ _ d d).
  - rewrite length_map, length_seq. reflexivity.
  - intros n Hn. rewrite length_map, length_seq in Hn.
    rewrite (nth_indep _ d (nth 0 l d)) by (rewrite length_map, length_seq; lia).
    rewrite (map_nth (fun i => nth i l d)).
    rewrite seq_nth by lia. reflexivity.
Qed.

Lemma perm_seq_bound (p : list nat) (n : nat) :
  Permutation p (seq 0 n) -> Forall (fun i => (i < n)%nat) p.
Proof.
  intros H. apply Forall_forall. intros i Hi.
  apply (Permutation_in _ H), in_seq in Hi. lia.
Qed.

Lemma perm_seq_NoDup (p : list nat) (n : nat) :
  Permutation p (seq 0 n) -> NoDup p.
Proof.
  intros H. eapply Permutation_NoDup; [apply Permutation_sym, H | apply seq_NoDup].
Qed.

Lemma In_nth_lt {A} (l : list A) (x d : A) :
  In x l -> exists i, (i < List.length l)%nat /\ nth i l d = x.
Proof. apply In_nth. Qed.

Lemma In_firstn {A} (l : list A) (k : nat) (x : A) :
  In x (firstn k l) -> In x l.
Proof.
  intros H. rewrite <- (firstn_skipn k l). apply in_or_app. left. exact H.
Qed.

Lemma In_firstn_nth {A} (l : list A) (k : nat) (x d : A) :
  In x (firstn k l) -> exists i, (i < k)%nat /\ (i < List.length l)%nat /\ nth i l d = x.
Proof.
  intros H. destruct (In_nth _ _ d H) as (i & Hi & Hx).
  rewrite length_firstn in Hi. exists i. repeat split; try lia.
  rewrite <- Hx, nth_firstn.
  destruct (Nat.ltb_spec i k); [reflexivity | lia].
Qed.

Lemma In_not_firstn_nth {A} (l : list A) (k : nat) (x d : A) :
  In x l -> ~ In x (firstn k l) ->
  exists i, (k <= i)%nat /\ (i < List.length l)%nat /\ nth i l d = x.
Proof.
  intros H Hn. rewrite <- (firstn_skipn k l) in H.
  apply in_app_or in H. destruct H as [H | H]; [contradiction |].
  destruct (In_nth _ _ d H) as (i & Hi & Hx).
  rewrite length_skipn in Hi. exists (k + i)%nat. repeat split; try lia.
  rewrite <- Hx. rewrite nth_skipn. reflexivity.
Qed.

(** ** Selecting the largest entries and ordering them

    Both [get_topics] and [_highest_ranking_docs] select with
    [argpartition] on the negated weights, cut the result, and order the
    selection with [argsort] on the negated selected weights. *)

Section Selection.

Context {K : Np.Kernels} {L : Np.Laws K}.

Lemma at_neg (a : Vector) (i : nat) :
  Np.at_ (Np.neg a) i = (- Np.at_ a i)%Q.
Proof.
  unfold Np.at_, Np.neg. change 0%Q with (- 0)%Q at 1. apply map_nth.
Qed.

Lemma at_map {A} (f : A -> Q) (l : list A) (d : A) (i : nat) :
  (i < List.length l)%nat -> Np.at_ (map f l) i = f (nth i l d).
Proof.
  intros H. unfold Np.at_.
  rewrite (nth_indep _ 0%Q (f d)) by (rewrite length_map; exact H).
  apply map_nth.
Qed.

Lemma Qopp_opp_eq (x : Q) : (- - x)%Q = x.
Proof. destruct x as [n d]. unfold Qopp. simpl. rewrite Z.opp_involutive. reflexivity. Qed.

Lemma Qopp_le_inv (x y : Q) : (- x <= - y)%Q -> (y <= x)%Q.
Proof. unfold Qle, Qopp. simpl. lia. Qed.

Lemma length_neg (a : Vector) : List.length (Np.neg a) = List.length a.
Proof. apply length_map. Qed.

Lemma partition_perm (a : Vector) (k : nat) :
  (k < List.length a)%nat ->
  Permutation (Np.introselect (Np.neg a) k) (seq 0 (List.length a)).
Proof.
  intros H. rewrite <- (length_neg a). apply Np.introselect_perm.
  rewrite length_neg. exact H.
Qed.

Lemma selected_length (a : Vector) (k : nat) :
  (k < List.length a)%nat -> List.length (selected a k) = k.
Proof.
  intros H. unfold selected. rewrite length_firstn.
  rewrite (Permutation_length (partition_perm a H)), length_seq. lia.
Qed.

Lemma selected_bound (a : Vector) (k : nat) :
  (k < List.length a)%nat ->
  Forall (fun i => (i < List.length a)%nat) (selected a k).
Proof.
  intros H. apply Forall_forall. intros i Hi.
  apply In_firstn in Hi.
  apply (Permutation_in _ (partition_perm a H)), in_seq in Hi. lia.
Qed.

Lemma NoDup_firstn {A} (l : list A) (k : nat) : NoDup l -> NoDup (firstn k l).
Proof.
  intros H. rewrite <- (firstn_skipn k l) in H.
  apply NoDup_app_remove_r in H. exact H.
Qed.

Lemma selected_NoDup (a : Vector) (k : nat) :
  (k < List.length a)%nat -> NoDup (selected a k).
Proof.
  intros H. apply NoDup_firstn.
  eapply perm_seq_NoDup, partition_perm, H.
Qed.

(** No index left out has a larger weight than a selected one. *)
Lemma selected_top (a : Vector) (k s m : nat) :
  (k < List.length a)%nat ->
  In s (selected a k) -> (m < List.length a)%nat -> ~ In m (selected a k) ->
  (Np.at_ a m <= Np.at_ a s)%Q.
Proof.
  intros Hk Hs Hm Hnot.
  assert (Hk' : (k < List.length (Np.neg a))%nat) by (rewrite length_neg; exact Hk).
  pose proof (partition_perm a Hk) as Hp.
  assert (Hlen : List.length (Np.introselect (Np.neg a) k) = List.length a)
    by (rewrite (Permutation_length Hp); apply length_seq).
  destruct (In_firstn_nth _ _ _ O Hs) as (j & Hj & _ & Hjs).
  assert (Hin : In m (Np.introselect (Np.neg a) k)).
  { apply (Permutation_in _ (Permutation_sym Hp)), in_seq.
    lia. }
  destruct (In_not_firstn_nth _ _ _ O Hin Hnot) as (i & Hi & Hi' & Him).
  rewrite Hlen in Hi'.
  apply Qopp_le_inv. rewrite <- !at_neg, <- Hjs, <- Him.
  eapply Qle_trans.
  - apply Np.introselect_low; assumption.
  - destruct (Nat.eq_dec i k) as [-> | Hne]; [apply Qle_refl |].
    apply Np.introselect_high; [lia | rewrite length_neg; exact Hi'].
Qed.

Lemma argsort_perm (a : Vector) :
  Permutation (Np.argsort a) (seq 0 (List.length a)).
Proof. apply Np.sort_order_perm. Qed.

Lemma argsort_length (a : Vector) :
  List.length (Np.argsort a) = List.length a.
Proof. rewrite (Permutation_length (argsort_perm a)). apply length_seq. Qed.

Lemma reorder_perm (a : Vector) (sel : list nat) :
  Permutation (reorder a sel) sel.
Proof.
  unfold reorder, Np.ix.
  eapply perm_trans.
  - apply Permutation_map, argsort_perm.
  - rewrite length_neg, length_map, map_nth_seq. apply Permutation_refl.
Qed.

Lemma reorder_length (a : Vector) (sel : list nat) :
  List.length (reorder a sel) = List.length sel.
Proof. apply Permutation_length, reorder_perm. Qed.

Lemma reorder_sorted (a : Vector) (sel : list nat) :
  non_increasing (map (Np.at_ a) (reorder a sel)).
Proof.
  intros i j Hij Hj. rewrite length_map, reorder_length in Hj.
  set (imp := Np.neg (map (Np.at_ a) sel)).
  assert (Hlen : List.length imp = List.length sel)
    by (unfold imp; rewrite length_neg, length_map; reflexivity).
  assert (Hb := @perm_seq_bound _ _ (argsort_perm imp)). rewrite Hlen in Hb.
  rewrite Forall_forall in Hb.
  assert (Hnth : forall n, (n < List.length sel)%nat ->
            Np.at_ (map (Np.at_ a) (reorder a sel)) n
            = (- Np.at_ imp (Np.ix (Np.argsort imp) n))%Q).
  { intros n Hn. unfold reorder. fold imp.
    rewrite (at_map _ _ O) by (rewrite length_map, argsort_length, Hlen; exact Hn).
    rewrite (nth_indep _ O (Np.ix sel O)) by (rewrite length_map, argsort_length, Hlen; exact Hn).
    rewrite (map_nth (Np.ix sel)). fold (Np.ix (Np.argsort imp) n).
    unfold imp at 2. rewrite at_neg.
    rewrite (at_map _ _ O).
    - unfold Np.ix. rewrite Qopp_opp_eq. reflexivity.
    - apply Hb, nth_In. rewrite argsort_length, Hlen. exact Hn. }
  rewrite !Hnth by lia.
  apply Qopp_le_compat.
  apply Np.sort_order_sorted; [exact Hij | rewrite Hlen; exact Hj].
Qed.

End Selection.

(** ** [get_topics] *)

Section GetTopics.

Context {K : Np.Kernels} {L : Np.Laws K}.

Lemma combine_map_self {A B} (f : A -> B) (l : list A) :
  combine l (map f l) = map (fun x => (x, f x)) l.
Proof. induction l; simpl; congruence. Qed.

Lemma combine_map_r {A B C} (f : B -> C) (l : list A) (l' : list B) :
  combine l (map f l') = map (fun p => (fst p, f (snd p))) (combine l l').
Proof.
  revert l'. induction l as [| x l IH]; intros [| y l']; simpl; try reflexivity.
  rewrite IH. reflexivity.
Qed.

Lemma slice_to_nonneg {A} (k : Z) (l : list A) :
  0 <= k -> slice_to k l = firstn (Z.to_nat k) l.
Proof.
  intros H. unfold slice_to. destruct (Z.ltb_spec k 0); [lia | reflexivity].
Qed.

Lemma argpartition_in_range (a : Vector) (kth : Z) :
  0 <= kth < Z.of_nat (List.length a) ->
  Np.argpartition a kth = Ok (Np.introselect a (Z.to_nat kth)).
Proof.
  intros H. unfold Np.argpartition.
  destruct (Z.ltb_spec kth 0); [lia |].
  destruct (Z.eqb_spec (Z.of_nat (List.length a)) 0); [lia |].
  destruct (Z.ltb_spec kth 0); [lia |].
  destruct (Z.leb_spec (Z.of_nat (List.length a)) kth); [lia |].
  reflexivity.
Qed.

Lemma argpartition_out_of_range (a : Vector) (kth : Z) :
  (0 < List.length a)%nat -> Z.of_nat (List.length a) <= kth ->
  Np.argpartition a kth
  = Err (ValueError (Np.kth_message kth (Z.of_nat (List.length a)))).
Proof.
  intros Hn H. unfold Np.argpartition.
  destruct (Z.ltb_spec kth 0); [lia |].
  destruct (Z.eqb_spec (Z.of_nat (List.length a)) 0); [lia |].
  destruct (Z.leb_spec (Z.of_nat (List.length a)) kth); [| lia].
  rewrite orb_true_r. reflexivity.
Qed.

Lemma reorder_bound (a : Vector) (sel : list nat) (n : nat) :
  Forall (fun i => (i < n)%nat) sel ->
  Forall (fun i => (i < n)%nat) (reorder a sel).
Proof.
  intros H. eapply Permutation_Forall; [apply Permutation_sym, reorder_perm | exact H].
Qed.

Lemma rank_selected_eq (vocab : list string) (component : Vector) (sel : list nat) :
  List.length component = List.length vocab ->
  Forall (fun i => (i < List.length component)%nat) sel ->
  rank_selected vocab (component, sel)
  = Ok (map (fun i => nth i vocab "") (reorder component sel),
        map (Np.at_ component) (reorder component sel)).
Proof.
  intros Hlen Hsel. unfold rank_selected.
  rewrite (take_ok _ 0%Q Hsel). cbn [bind].
  change (map (fun i => nth i component 0%Q) sel) with (map (Np.at_ component) sel).
  rewrite (take_ok sel O).
  2:{ assert (H := @perm_seq_bound _ _
                     (argsort_perm (Np.neg (map (Np.at_ component) sel)))).
      rewrite length_neg, length_map in H. exact H. }
  cbn [bind].
  change (map (fun i => nth i sel O) (Np.argsort (Np.neg (map (Np.at_ component) sel))))
    with (reorder component sel).
  rewrite (take_ok _ 0%Q (reorder_bound component Hsel)). cbn [bind].
  rewrite (take_ok vocab "").
  2:{ rewrite <- Hlen. apply reorder_bound, Hsel. }
  reflexivity.
Qed.

(** What [get_topics] computes when [top_k] is a valid partition point. *)
Lemma get_topics_eq (self : Self) (components : Matrix) (vocab : list string)
    (top_k : Z) :
  components_ self = Some components ->
  get_vocab self = Ok vocab ->
  Forall (fun row => List.length row = List.length vocab) components ->
  0 <= top_k < Z.of_nat (List.length vocab) ->
  get_topics self top_k
  = Ok (map (fun p => (fst p, top_terms vocab (snd p) (Z.to_nat top_k)))
            (combine (classes_of self (List.length components)) components)).
Proof.
  intros Hc Hv Hrows Hk. unfold get_topics. rewrite Hc. cbn [attr bind].
  unfold Np.argpartition_rows.
  rewrite (mapM_ok _ (fun a => Np.introselect a (Z.to_nat top_k))).
  2:{ apply Forall_forall. intros a Ha. apply in_map_iff in Ha.
      destruct Ha as (row & <- & Hrow).
      rewrite Forall_forall in Hrows. specialize (Hrows _ Hrow).
      apply argpartition_in_range. rewrite length_neg. lia. }
  cbn [bind]. rewrite Hv. cbn [bind].
  rewrite !map_map.
  rewrite (map_ext _ (fun row => selected row (Z.to_nat top_k)))
    by (intros row; apply slice_to_nonneg; lia).
  rewrite combine_map_self.
  rewrite (mapM_ok _ (fun rs : Vector * list nat =>
             (map (fun i => nth i vocab "") (reorder (fst rs) (snd rs)),
              map (Np.at_ (fst rs)) (reorder (fst rs) (snd rs))))).
  2:{ apply Forall_forall. intros [row sel] Hin. apply in_map_iff in Hin.
      destruct Hin as (row' & Heq & Hrow). inversion Heq; subst. cbn [fst snd].
      rewrite Forall_forall in Hrows. specialize (Hrows _ Hrow).
      apply rank_selected_eq; [exact Hrows |].
      apply selected_bound. lia. }
  cbn [bind]. f_equal. rewrite map_map.
  fold (classes_of self (List.length components)).
  rewrite combine_map_r, map_map. apply map_ext.
  intros [topic row]. reflexivity.
Qed.

End GetTopics.

Section TopTerms.

Context {K : Np.Kernels} {L : Np.Laws K}.

Lemma map_fst_combine {A B} (l : list A) (l' : list B) :
  List.length l = List.length l' -> map fst (combine l l') = l.
Proof.
  revert l'. induction l as [| x l IH]; intros [| y l'] H; simpl in *;
    try reflexivity; try discriminate.
  f_equal. apply IH. lia.
Qed.

Lemma map_snd_combine {A B} (l : list A) (l' : list B) :
  List.length l = List.length l' -> map snd (combine l l') = l'.
Proof.
  revert l'. induction l as [| x l IH]; intros [| y l'] H; simpl in *;
    try reflexivity; try discriminate.
  f_equal. apply IH. lia.
Qed.

Lemma ranked_spec (component : Vector) (k : nat) :
  (k < List.length component)%nat ->
  List.length (ranked component k) = k
  /\ NoDup (ranked component k)
  /\ Forall (fun i => (i < List.length component)%nat) (ranked component k)
  /\ non_increasing (map (Np.at_ component) (ranked component k))
  /\ (forall m s, (m < List.length component)%nat ->
                  ~ In m (ranked component k) -> In s (ranked component k) ->
                  (Np.at_ component m <= Np.at_ component s)%Q).
Proof.
  intros Hk. unfold ranked.
  pose proof (reorder_perm component (selected component k)) as Hp.
  repeat split.
  - rewrite reorder_length. apply selected_length, Hk.
  - eapply Permutation_NoDup; [apply Permutation_sym, Hp |].
    apply selected_NoDup, Hk.
  - apply reorder_bound, selected_bound, Hk.
  - apply reorder_sorted.
  - intros m s Hm Hnot Hs.
    eapply selected_top; [exact Hk | | exact Hm |].
    + apply (Permutation_in _ Hp), Hs.
    + intros Hin. apply Hnot.
      apply (Permutation_in _ (Permutation_sym Hp)), Hin.
Qed.

Lemma top_terms_ok (vocab : list string) (component : Vector) (k : nat) :
  NoDup vocab ->
  List.length component = List.length vocab ->
  (k < List.length vocab)%nat ->
  terms_ok vocab component k (top_terms vocab component k).
Proof.
  intros Hnd Hlen Hk. rewrite <- Hlen in Hk.
  destruct (ranked_spec component Hk) as (Hl & Hn & Hb & Hs & _).
  unfold top_terms.
  assert (Hll : List.length (map (fun i => nth i vocab "") (ranked component k))
                = List.length (map (Np.at_ component) (ranked component k)))
    by (rewrite !length_map; reflexivity).
  unfold terms_ok. rewrite (map_fst_combine _ _ Hll), (map_snd_combine _ _ Hll).
  repeat split.
  - rewrite length_combine, !length_map. lia.
  - exact Hs.
  - apply NoDup_map_NoDup_ForallPairs; [| exact Hn].
    intros i j Hi Hj Heq. rewrite Forall_forall in Hb.
    apply (proj1 (NoDup_nth vocab "") Hnd); rewrite <- ?Hlen; auto.
  - rewrite Forall_forall in *. intros [w s] Hin.
    apply in_combine_l in Hin as Hw. apply in_combine_r in Hin as Hs'.
    destruct (In_nth _ _ ("", 0%Q) Hin) as (n & Hn' & Hnth).
    rewrite length_combine, !length_map, Nat.min_id in Hn'.
    rewrite combine_nth in Hnth by exact Hll.
    inversion Hnth as [[Hw' Hs'']].
    rewrite (nth_indep _ "" (nth O vocab "")) by (rewrite length_map; exact Hn').
    rewrite (map_nth (fun i => nth i vocab "")).
    rewrite (nth_indep _ 0%Q (Np.at_ component O)) by (rewrite length_map; exact Hn').
    rewrite (map_nth (Np.at_ component)).
    set (i := nth n (ranked component k) O).
    assert (Hi : (i < List.length component)%nat) by (apply Hb, nth_In, Hn').
    exists i. cbn [fst snd]. split.
    + apply nth_error_nth'. rewrite <- Hlen. exact Hi.
    + apply nth_error_nth'. exact Hi.
Qed.

End TopTerms.

(** ** The scenario of the spec: one topic over three terms *)

Section Scenario.

Context {K : Np.Kernels} {L : Np.Laws K}.

Lemma ranked_sale : ranked sale_row 2 = [0; 1]%nat.
Proof.
  destruct (@ranked_spec K L sale_row 2) as (Hl & Hn & Hb & Hs & Ht);
    [simpl; lia |].
  destruct (ranked sale_row 2) as [| x [| y [| z r]]]; try discriminate Hl.
  clear Hl.
  assert (Hxy : x <> y).
  { intros E. inversion Hn as [| ? ? Hnot _]. apply Hnot. left. symmetry. exact E. }
  inversion Hb as [| ? ? Hx Hb']. inversion Hb' as [| ? ? Hy _]. subst.
  simpl in Hx, Hy.
  specialize (Hs 0%nat 1%nat ltac:(lia) ltac:(simpl; lia)).
  assert (Hout : forall m, (m < 3)%nat -> m <> x -> m <> y ->
                   (Np.at_ sale_row m <= Np.at_ sale_row x)%Q
                   /\ (Np.at_ sale_row m <= Np.at_ sale_row y)%Q).
  { intros m Hm Hmx Hmy.
    split; apply Ht;
      solve [ exact Hm | simpl; intuition congruence | simpl; auto ]. }
  destruct x as [| [| [| x]]]; try lia;
    destruct y as [| [| [| y]]]; try lia; try reflexivity; exfalso;
    try (revert Hs; unfold Qle; simpl; lia).
  - destruct (Hout 1%nat) as [_ H]; try lia. revert H. unfold Qle. simpl. lia.
  - destruct (Hout 0%nat) as [H _]; try lia. revert H. unfold Qle. simpl. lia.
Qed.

Lemma top_terms_sale :
  top_terms sale_vocab sale_row 2 = [("sale", 9 # 10); ("price", 5 # 10)]%Q.
Proof.
  unfold top_terms. rewrite ranked_sale. reflexivity.
Qed.

(** With two equal weights either order may come out, with the same
    weights. *)
Lemma ranked_tie :
  ranked tie_row 2 = [0; 1]%nat \/ ranked tie_row 2 = [1; 0]%nat.
Proof.
  destruct (@ranked_spec K L tie_row 2) as (Hl & Hn & Hb & Hs & Ht);
    [simpl; lia |].
  destruct (ranked tie_row 2) as [| x [| y [| z r]]]; try discriminate Hl.
  clear Hl.
  assert (Hxy : x <> y).
  { intros E. inversion Hn as [| ? ? Hnot _]. apply Hnot. left. symmetry. exact E. }
  inversion Hb as [| ? ? Hx Hb']. inversion Hb' as [| ? ? Hy _]. subst.
  simpl in Hx, Hy.
  specialize (Hs 0%nat 1%nat ltac:(lia) ltac:(simpl; lia)).
  assert (Hout : forall m, (m < 3)%nat -> m <> x -> m <> y ->
                   (Np.at_ tie_row m <= Np.at_ tie_row x)%Q
                   /\ (Np.at_ tie_row m <= Np.at_ tie_row y)%Q).
  { intros m Hm Hmx Hmy.
    split; apply Ht;
      solve [ exact Hm | simpl; intuition congruence | simpl; auto ]. }
  destruct x as [| [| [| x]]]; try lia;
    destruct y as [| [| [| y]]]; try lia;
    first [ left; reflexivity
          | right; reflexivity
          | exfalso; revert Hs; unfold Qle; simpl; lia
          | exfalso; destruct (Hout 0%nat) as [H1 H2]; try lia;
            revert H1 H2; unfold Qle; simpl; lia
          | exfalso; destruct (Hout 1%nat) as [H1 H2]; try lia;
            revert H1 H2; unfold Qle; simpl; lia ].
Qed.

Lemma get_topics_tie_weights :
  exists terms,
    get_topics tie_model 2 = Ok [(0, terms)]
    /\ map snd terms = [5 # 10; 5 # 10]%Q.
Proof.
  eexists.
  rewrite (get_topics_eq tie_model (vocab := sale_vocab) eq_refl eq_refl).
  - split; [reflexivity |].
    cbn [map combine classes_of tie_model classes_ range seq List.length fst snd].
    unfold top_terms. change (Z.to_nat 2) with 2%nat.
    destruct ranked_tie as [-> | ->]; reflexivity.
  - repeat constructor.
  - simpl. lia.
Qed.

End Scenario.

Lemma nth_error_combine {A B} (l : list A) (l' : list B) (n : nat) (a : A) (b : B) :
  nth_error (combine l l') n = Some (a, b) ->
  nth_error l n = Some a /\ nth_error l' n = Some b.
Proof.
  revert l' n. induction l as [| x l IH]; intros [| y l'] [| n] H;
    simpl in *; try discriminate.
  - inversion H. auto.
  - apply IH, H.
Qed.

(** C1 (amended).  For a fitted model whose topic rows have one weight per
    vocabulary term, whose vocabulary has no repeated term, and for every
    positive [top_k] below the vocabulary size, [get_topics] returns one
    entry per topic, and the entry of topic row [t] holds exactly
    [min(top_k, vocab_size)] pairs, in non-increasing order of weight,
    with no repeated term, each pair being a vocabulary term with its
    weight in that row.  In the scenario of the spec (terms sale, price,
    item weighted 0.9, 0.5, 0.2 for topic 0, [top_k = 2]) topic 0 is
    reported as [(sale, 0.9); (price, 0.5)]. *)
Theorem get_topics_top_k (K : Np.Kernels) (L : Np.Laws K) :
  (forall (self : Self) (components : Matrix) (vocab : list string) (top_k : Z),
      components_ self = Some components ->
      get_vocab self = Ok vocab ->
      NoDup vocab ->
      Forall (fun row => List.length row = List.length vocab) components ->
      0 < top_k < Z.of_nat (List.length vocab) ->
      exists topics,
        get_topics self top_k = Ok topics
        /\ List.length topics
           = Nat.min (List.length (classes_of self (List.length components)))
                     (List.length components)
        /\ forall t row entry,
            nth_error components t = Some row ->
            nth_error topics t = Some entry ->
            terms_ok vocab row
              (Z.to_nat (Z.min top_k (Z.of_nat (List.length vocab))))
              (snd entry))
  /\ (forall others : Matrix,
         Forall (fun row => List.length row = 3%nat) others ->
         exists rest,
           get_topics (sale_model others) 2
           = Ok ((0, [("sale", 9 # 10); ("price", 5 # 10)]%Q) :: rest)).
Proof.
  split.
  - intros self components vocab top_k Hc Hv Hnd Hrows Hk.
    eexists. split; [apply (get_topics_eq self Hc Hv Hrows); lia |].
    split; [rewrite length_map, length_combine; reflexivity |].
    intros t row [topic terms] Hrow Hentry.
    rewrite nth_error_map in Hentry.
    destruct (nth_error (combine _ components) t) as [[c row'] |] eqn:E;
      [| discriminate].
    apply nth_error_combine in E. destruct E as [_ E].
    assert (row' = row) by congruence. subst row'.
    cbn in Hentry. inversion Hentry; subst. cbn [snd].
    rewrite Z.min_l by lia.
    apply top_terms_ok; [exact Hnd | | lia].
    rewrite Forall_forall in Hrows. apply Hrows.
    eapply nth_error_In, Hrow.
  - intros others Hothers.
    eexists.
    rewrite (get_topics_eq (sale_model others) (vocab := sale_vocab) eq_refl eq_refl).
    + cbn [map combine classes_of sale_model classes_ range seq List.length fst snd Z.to_nat Pos.to_nat Pos.iter_op Nat.add].
      rewrite top_terms_sale. reflexivity.
    + constructor; [reflexivity | exact Hothers].
    + simpl. lia.
Qed.

(** The theorem at the scenario model, with the reference kernels. *)
Lemma get_topics_top_k_witness :
  exists topics,
    get_topics (K := RefNumpy.kernels) (sale_model []) 2 = Ok topics
    /\ List.length topics = 1%nat
    /\ forall t row entry,
        nth_error [sale_row] t = Some row ->
        nth_error topics t = Some entry ->
        terms_ok sale_vocab row 2 (snd entry).
Proof.
  apply (proj1 (get_topics_top_k ref_laws) (sale_model []) [sale_row] sale_vocab 2).
  - reflexivity.
  - reflexivity.
  - repeat constructor; simpl; intuition discriminate.
  - repeat constructor.
  - simpl. lia.
Defined.

(** C1 as stated fails: with two equal weights the reported order is not
    strictly descending, and [top_k = vocab_size] raises instead of
    returning [min(top_k, vocab_size)] pairs. *)
Lemma get_topics_not_strict_nor_clamped :
  (exists terms,
      get_topics (K := RefNumpy.kernels) tie_model 2 = Ok [(0, terms)]
      /\ ~ strictly_decreasing (map snd terms))
  /\ get_topics (K := RefNumpy.kernels) (sale_model []) 3
     = Err (ValueError "kth(=3) out of bounds (3)").
Proof.
  split.
  - eexists. split; [vm_compute; reflexivity |].
    intros H. specialize (H 0%nat 1%nat ltac:(lia) ltac:(simpl; lia)).
    revert H. vm_compute. intros H. discriminate H.
  - vm_compute. reflexivity.
Qed.

(** ** [_highest_ranking_docs] *)

Section HighestRankingDocs.

Context {K : Np.Kernels} {L : Np.Laws K}.

Lemma column_length (m : Matrix) (j : Z) (col : Vector) :
  Np.column m j = Ok col -> List.length col = List.length m.
Proof. apply mapM_length. Qed.

Lemma rank_documents_eq (self : Self) (topic_id j : Z)
    (raw_documents : list string) (m : Matrix) (col : Vector) (top_k : Z) :
  resolve_topic self topic_id = Ok j ->
  Np.column m j = Ok col ->
  0 <= top_k -> (1 <= List.length m)%nat ->
  Forall (fun i => (i < List.length raw_documents)%nat)
         (ranked col (effective_k top_k (List.length m))) ->
  rank_documents self topic_id raw_documents m top_k
  = Ok (docs_header
          :: map (doc_row raw_documents col)
                 (ranked col (effective_k top_k (List.length m)))).
Proof.
  intros Hres Hcol Hk Hn Hraw.
  pose proof (column_length _ _ Hcol) as Hlen.
  unfold rank_documents. rewrite Hres. cbn [bind]. rewrite Hcol. cbn [bind].
  set (kth := Z.min top_k (Z.of_nat (List.length m) - 1)).
  assert (Hkth : 0 <= kth < Z.of_nat (List.length col)) by (unfold kth; lia).
  rewrite argpartition_in_range by (rewrite length_neg; exact Hkth).
  cbn [bind]. rewrite slice_to_nonneg by lia.
  fold (selected col (Z.to_nat kth)).
  assert (Hsel : Forall (fun i => (i < List.length col)%nat) (selected col (Z.to_nat kth)))
    by (apply selected_bound; lia).
  rewrite (take_ok _ 0%Q Hsel). cbn [bind].
  change (map (fun i => nth i col 0%Q) (selected col (Z.to_nat kth)))
    with (map (Np.at_ col) (selected col (Z.to_nat kth))).
  rewrite (take_ok (selected col (Z.to_nat kth)) O).
  2:{ assert (H := @perm_seq_bound _ _
                     (argsort_perm (Np.neg (map (Np.at_ col) (selected col (Z.to_nat kth)))))).
      rewrite length_neg, length_map in H. exact H. }
  cbn [bind].
  change (map (fun i => nth i (selected col (Z.to_nat kth)) O)
              (Np.argsort (Np.neg (map (Np.at_ col) (selected col (Z.to_nat kth))))))
    with (ranked col (Z.to_nat kth)).
  rewrite (take_ok col 0%Q) by (apply reorder_bound, Hsel). cbn [bind].
  change (Z.to_nat kth) with (effective_k top_k (List.length m)) in *.
  rewrite combine_map_self.
  rewrite (mapM_ok _ (fun p : nat * Q => [shown_document (nth (fst p) raw_documents ""); format_2f (snd p)])).
  2:{ apply Forall_forall. intros [i s] Hin. apply in_map_iff in Hin.
      destruct Hin as (i' & Heq & Hi). inversion Heq; subst. cbn [fst snd].
      rewrite Forall_forall in Hraw.
      rewrite (getitem_ok _ "" (Hraw _ Hi)). reflexivity. }
  cbn [bind]. rewrite map_map. reflexivity.
Qed.

End HighestRankingDocs.

(** C2.  When [_highest_ranking_docs] has its document-topic matrix
    (passed by the caller, or computed by [transform]) with [n_documents]
    rows, at least one, a resolved topic column, one document per row and a
    non-negative [top_k], it selects [k = min(top_k, n_documents - 1)]
    documents: the grid holds one row per selected document, the selected
    documents are [k] distinct rows of the matrix, no document left out
    scores higher in that column than a selected one, and the scores of the
    rows are in non-increasing order. *)
Theorem highest_ranking_docs_top_k (K : Np.Kernels) (L : Np.Laws K)
    (v : Variant) (st : State) (topic_id j : Z) (raw_documents : list string)
    (given : option Matrix) (m : Matrix) (col : Vector) (top_k : Z) :
  given = Some m
  \/ (given = None
      /\ exists f, transform v = Some f /\ f raw_documents None (self_ st) = Ok m) ->
  resolve_topic (self_ st) topic_id = Ok j ->
  Np.column m j = Ok col ->
  List.length raw_documents = List.length m ->
  0 <= top_k ->
  (1 <= List.length m)%nat ->
  exists ids,
    fst (_highest_ranking_docs v topic_id raw_documents given top_k st)
    = Ok (docs_header :: map (doc_row raw_documents col) ids)
    /\ List.length ids
       = Z.to_nat (Z.min top_k (Z.of_nat (List.length m) - 1))
    /\ NoDup ids
    /\ Forall (fun i => (i < List.length m)%nat) ids
    /\ (forall out s, (out < List.length m)%nat -> ~ In out ids -> In s ids ->
                      (Np.at_ col out <= Np.at_ col s)%Q)
    /\ non_increasing (map (Np.at_ col) ids).
Proof.
  intros Hgiven Hres Hcol Hraw Hk Hn.
  pose proof (column_length _ _ Hcol) as Hlen.
  assert (Hlt : (effective_k top_k (List.length m) < List.length col)%nat)
    by (unfold effective_k; lia).
  destruct (ranked_spec col Hlt) as (Hl & Hnd & Hb & Hs & Ht).
  exists (ranked col (effective_k top_k (List.length m))).
  rewrite Hlen in Hb, Ht.
  repeat split; try assumption.
  assert (Hrank : rank_documents (self_ st) topic_id raw_documents m top_k
                  = Ok (docs_header
                          :: map (doc_row raw_documents col)
                               (ranked col (effective_k top_k (List.length m)))))
    by (apply rank_documents_eq with (j := j); try assumption;
        rewrite Hraw; exact Hb).
  unfold _highest_ranking_docs.
  destruct Hgiven as [-> | (-> & f & Hf & Hm)].
  - unfold bindM, ret, get_self, lift. cbn. exact Hrank.
  - unfold try_except, call_transform, bindM, emit, ret, get_self, lift.
    rewrite Hf. cbn. rewrite Hm. cbn. exact Hrank.
Qed.

Lemma highest_ranking_docs_top_k_witness :
  exists ids,
    fst (_highest_ranking_docs (K := RefNumpy.kernels) transductive_variant 0
           ["a"; "b"; "c"] (Some [[1 # 2]; [1 # 3]; [3 # 4]]%Q) 5
           (start (sale_model [])))
    = Ok (docs_header
            :: map (doc_row ["a"; "b"; "c"] [1 # 2; 1 # 3; 3 # 4]%Q) ids)
    /\ List.length ids = 2%nat
    /\ NoDup ids
    /\ Forall (fun i => (i < 3)%nat) ids
    /\ (forall out s, (out < 3)%nat -> ~ In out ids -> In s ids ->
                      (Np.at_ [1 # 2; 1 # 3; 3 # 4]%Q out
                       <= Np.at_ [1 # 2; 1 # 3; 3 # 4]%Q s)%Q)
    /\ non_increasing (map (Np.at_ [1 # 2; 1 # 3; 3 # 4]%Q) ids).
Proof.
  apply (@highest_ranking_docs_top_k RefNumpy.kernels ref_laws
           transductive_variant (start (sale_model [])) 0 0
           ["a"; "b"; "c"] (Some [[1 # 2]; [1 # 3]; [3 # 4]]%Q)
           [[1 # 2]; [1 # 3]; [3 # 4]]%Q [1 # 2; 1 # 3; 3 # 4]%Q 5).
  - left. reflexivity.
  - reflexivity.
  - reflexivity.
  - reflexivity.
  - lia.
  - simpl. lia.
Defined.

Example highest_ranking_docs_run :
  fst (_highest_ranking_docs (K := RefNumpy.kernels) transductive_variant 0
         ["a"; "b"; "c"] (Some [[1 # 2]; [1 # 3]; [3 # 4]]%Q) 5
         (start (sale_model [])))
  = Ok [["Document"; "Score"]; ["c"; "0.75"]; ["a"; "0.50"]].
Proof. vm_compute. reflexivity. Qed.

(** C10.  With a one-row document-topic matrix, a resolved topic column
    and [top_k >= 1], the effective selection size is
    [min(top_k, 1 - 1) = 0] and the grid is the header row alone. *)
Theorem highest_ranking_docs_single_document (K : Np.Kernels) (L : Np.Laws K)
    (v : Variant) (st : State) (topic_id j : Z) (raw_documents : list string)
    (row : Vector) (col : Vector) (top_k : Z) :
  resolve_topic (self_ st) topic_id = Ok j ->
  Np.column [row] j = Ok col ->
  1 <= top_k ->
  Z.min top_k (Z.of_nat (List.length [row]) - 1) = 0
  /\ _highest_ranking_docs v topic_id raw_documents (Some [row]) top_k st
     = (Ok [["Document"; "Score"]], st).
Proof.
  intros Hres Hcol Hk. split; [simpl; lia |].
  pose proof (column_length _ _ Hcol) as Hlen. simpl in Hlen.
  assert (Hz : effective_k top_k (List.length [row]) = O)
    by (unfold effective_k; simpl; lia).
  assert (Hlt : (O < List.length col)%nat) by lia.
  destruct (ranked_spec col Hlt) as (Hl & _).
  apply length_zero_iff_nil in Hl.
  unfold _highest_ranking_docs, bindM, ret, get_self, lift. cbn -[rank_documents].
  rewrite (@rank_documents_eq K L (self_ st) topic_id j raw_documents [row] col top_k);
    try assumption; try lia.
  - rewrite Hz, Hl. reflexivity.
  - simpl. lia.
  - rewrite Hz, Hl. constructor.
Qed.

Lemma highest_ranking_docs_single_document_witness :
  Z.min 5 (Z.of_nat (List.length [[7 # 10; 3 # 10]%Q]) - 1) = 0
  /\ _highest_ranking_docs (K := RefNumpy.kernels) transductive_variant 1
       ["only document"] (Some [[7 # 10; 3 # 10]%Q]) 5 (start (sale_model []))
     = (Ok [["Document"; "Score"]], start (sale_model [])).
Proof.
  apply (@highest_ranking_docs_single_document RefNumpy.kernels ref_laws
           transductive_variant (start (sale_model [])) 1 1 ["only document"]
           [7 # 10; 3 # 10]%Q [3 # 10]%Q 5).
  - reflexivity.
  - reflexivity.
  - lia.
Defined.

(** ** [prepare_topic_data]: the fallback *)

Section Fallback.

Context {K : Np.Kernels}.
Variable v : Variant.

Lemma transform_or_fit_run (corpus : list string) (e : Matrix) (st : State) :
  let attempt := transform_attempt v corpus e (self_ st) in
  let out := transform_or_fit v corpus e st in
  if match attempt with
     | Err ex => is_AttributeError_or_NotFittedError ex
     | Ok _ => false
     end
  then out = (fst (fit_transform v corpus (Some e) (self_ st)),
              {| self_ := snd (fit_transform v corpus (Some e) (self_ st));
                 log := (log st ++ [CallTransform; CallFitTransform])%list |})
  else out = (attempt, {| self_ := self_ st;
                          log := (log st ++ [CallTransform])%list |}).
Proof.
  unfold transform_attempt, transform_or_fit, try_except, call_transform,
    call_fit_transform, bindM, emit, raise.
  cbn.
  destruct (transform v) as [f |]; cbn.
  - destruct (f corpus (Some e) (self_ st)) as [m | ex]; cbn; [reflexivity |].
    destruct (is_AttributeError_or_NotFittedError ex); [| reflexivity].
    destruct (fit_transform v corpus (Some e) (self_ st)) as [r s'].
    cbn. rewrite <- app_assoc. reflexivity.
  - destruct (fit_transform v corpus (Some e) (self_ st)) as [r s'].
    cbn. rewrite <- app_assoc. reflexivity.
Qed.

(** Assembling the snapshot reads the model and calls the vectorizer; it
    changes nothing else. *)
Lemma assemble_state (corpus : list string) (e m : Matrix) (st : State) :
  snd (assemble v corpus e m st)
  = {| self_ := self_ st; log := (log st ++ [CallVectorize])%list |}.
Proof.
  unfold assemble, bindM, emit, get_self, lift, ret. cbn.
  destruct (vectorize _ corpus); cbn; [| reflexivity].
  destruct (get_vocab _); cbn; [| reflexivity].
  destruct (attr _); cbn; [| reflexivity].
  destruct (topic_names _); reflexivity.
Qed.

Lemma prepare_topic_data_run (corpus : list string)
    (embeddings : option Matrix) (e : Matrix) (st : State) :
  embeddings = Some e \/ (embeddings = None /\ encode v corpus = Ok e) ->
  prepare_topic_data v corpus embeddings st
  = (m <~ transform_or_fit v corpus e ;; assemble v corpus e m)
      (after_embeddings embeddings st).
Proof.
  intros [-> | [-> He]]; unfold prepare_topic_data, after_embeddings.
  - unfold bindM at 1. unfold ret. destruct st. reflexivity.
  - unfold bindM at 1. unfold encode_documents, bindM, emit, lift. cbn.
    rewrite He. reflexivity.
Qed.

Lemma prepare_topic_data_state (corpus : list string)
    (embeddings : option Matrix) (e : Matrix) (st : State) :
  embeddings = Some e \/ (embeddings = None /\ encode v corpus = Ok e) ->
  let mid := snd (transform_or_fit v corpus e (after_embeddings embeddings st)) in
  let final := snd (prepare_topic_data v corpus embeddings st) in
  self_ final = self_ mid
  /\ (log final = log mid \/ log final = (log mid ++ [CallVectorize])%list).
Proof.
  intros Hemb mid final. subst mid final.
  rewrite (prepare_topic_data_run corpus st Hemb).
  unfold bindM.
  destruct (transform_or_fit v corpus e (after_embeddings embeddings st))
    as [[m | ex] st2].
  - cbn iota beta. rewrite assemble_state. cbn. auto.
  - cbn. auto.
Qed.

End Fallback.

Section FallbackTheorem.

Context {K : Np.Kernels}.
Variable v : Variant.

Lemma falls_back_iff (attempt : Result Matrix) :
  falls_back attempt = true
  <-> attempt = Err AttributeError \/ attempt = Err NotFittedError.
Proof.
  destruct attempt as [m | []]; cbn; split; intros H;
    try discriminate; try reflexivity; try (destruct H; discriminate); auto.
Qed.

Lemma In_model_calls (st : State) :
  In CallFitTransform (log st) <-> In CallFitTransform (model_calls st).
Proof.
  unfold model_calls. rewrite filter_In. cbn. tauto.
Qed.

Lemma prepare_topic_data_calls (self : Self) (corpus : list string)
    (embeddings : option Matrix) (e : Matrix) :
  embeddings = Some e \/ (embeddings = None /\ encode v corpus = Ok e) ->
  let final := snd (prepare_topic_data v corpus embeddings (start self)) in
  if falls_back (transform_attempt v corpus e self)
  then model_calls final = [CallTransform; CallFitTransform]
       /\ self_ final = snd (fit_transform v corpus (Some e) self)
  else model_calls final = [CallTransform] /\ self_ final = self.
Proof.
  intros Hemb final.
  destruct (prepare_topic_data_state v corpus (start self) Hemb) as [Hself Hlog].
  fold final in Hself, Hlog.
  pose proof (transform_or_fit_run v corpus e (after_embeddings embeddings (start self)))
    as Hrun.
  cbn zeta in Hrun. cbn [after_embeddings self_ start] in Hrun.
  fold (falls_back (transform_attempt v corpus e self)) in Hrun.
  unfold model_calls.
  destruct (falls_back (transform_attempt v corpus e self));
    rewrite Hrun in Hself, Hlog; cbn [snd self_ log] in Hself, Hlog;
    (split; [| exact Hself]);
    destruct Hlog as [-> | ->];
    destruct Hemb as [-> | [-> _]]; reflexivity.
Qed.

End FallbackTheorem.

(** ** The reporting routines leave the model as it is *)

Section ReadOnly.

Context {K : Np.Kernels}.
Variable v : Variant.

Lemma highest_ranking_docs_read_only (topic_id : Z) (raw : list string)
    (given : option Matrix) (top_k : Z) :
  read_only (_highest_ranking_docs v topic_id raw given top_k).
Proof.
  intros st.
  unfold _highest_ranking_docs, try_except, call_transform, bindM, emit, raise,
    ret, get_self, lift.
  destruct given as [m |]; cbn; [left; reflexivity |].
  right.
  destruct (transform v) as [f |]; cbn; [| reflexivity].
  destruct (f raw None (self_ st)) as [m | ex]; cbn; [reflexivity |].
  destruct (is_AttributeError ex); reflexivity.
Qed.

Lemma topic_distribution_read_only (text : option string)
    (topic_dist : option Vector) (top_k : Z) :
  read_only (_topic_distribution v text topic_dist top_k).
Proof.
  intros st.
  unfold _topic_distribution, try_except, call_transform, bindM, emit, raise,
    ret, get_self, lift.
  destruct topic_dist as [d |]; cbn; [left; reflexivity |].
  destruct text as [t |]; cbn; [| left; reflexivity].
  right.
  destruct (transform v) as [f |]; cbn; [| reflexivity].
  destruct (f [t] None (self_ st)) as [m | ex]; cbn; [reflexivity |].
  destruct (is_AttributeError ex); reflexivity.
Qed.

Lemma read_only_no_fit {A} (c : M A) (self : Self) :
  read_only c ->
  self_ (snd (c (start self))) = self
  /\ ~ In CallFitTransform (log (snd (c (start self)))).
Proof.
  intros H. destruct (H (start self)) as [-> | ->]; cbn; split;
    try reflexivity; intuition discriminate.
Qed.

End ReadOnly.

(** C3.  Once the embeddings are at hand (passed in, or computed by the
    encoder), [prepare_topic_data] calls [transform] first.  It calls
    [fit_transform] second, and exactly when the attempt raises
    [AttributeError] or [NotFittedError]: for a variant whose [transform]
    raises one of these on an unfitted model and neither on a fitted one,
    exactly when the model is unfitted or has no [transform].  Without the
    fallback the learned state is untouched; with it, the state is the one
    [fit_transform] leaves.  The other reporting routines,
    [_highest_ranking_docs] and [_topic_distribution], never call
    [fit_transform] and never change the learned state. *)
Theorem prepare_topic_data_fallback (K : Np.Kernels) (v : Variant)
    (self : Self) (corpus : list string) (embeddings : option Matrix)
    (e : Matrix) :
  embeddings = Some e \/ (embeddings = None /\ encode v corpus = Ok e) ->
  transform_tells_unfitted v corpus e self ->
  let final := snd (prepare_topic_data v corpus embeddings (start self)) in
  let attempt := transform_attempt v corpus e self in
  (model_calls final = [CallTransform]
   \/ model_calls final = [CallTransform; CallFitTransform])
  /\ (In CallFitTransform (log final)
      <-> attempt = Err AttributeError \/ attempt = Err NotFittedError)
  /\ (In CallFitTransform (log final)
      <-> fitted self = false \/ transform v = None)
  /\ (~ In CallFitTransform (log final) -> self_ final = self)
  /\ (In CallFitTransform (log final) ->
      self_ final = snd (fit_transform v corpus (Some e) self))
  /\ (forall self' topic_id raw given top_k,
         let out := snd (_highest_ranking_docs v topic_id raw given top_k
                           (start self')) in
         self_ out = self' /\ ~ In CallFitTransform (log out))
  /\ (forall self' text topic_dist top_k,
         let out := snd (_topic_distribution v text topic_dist top_k
                           (start self')) in
         self_ out = self' /\ ~ In CallFitTransform (log out)).
Proof.
  intros Hemb Hcontract final attempt.
  pose proof (prepare_topic_data_calls v self corpus Hemb) as Hcalls.
  fold final attempt in Hcalls.
  pose proof (falls_back_iff attempt) as Hiff.
  assert (Hlog : In CallFitTransform (log final) <-> falls_back attempt = true).
  { rewrite In_model_calls.
    destruct (falls_back attempt); destruct Hcalls as [-> _]; cbn;
      intuition discriminate. }
  assert (Hfit : falls_back attempt = true
                 <-> fitted self = false \/ transform v = None).
  { rewrite Hiff. subst attempt. unfold transform_attempt.
    destruct (transform v) as [f |] eqn:Ef.
    - destruct (Hcontract f Ef) as [Hun Hfi].
      destruct (fitted self).
      + destruct (Hfi eq_refl) as [H1 H2]. intuition discriminate.
      + specialize (Hun eq_refl). tauto.
    - tauto. }
  split; [destruct (falls_back attempt); destruct Hcalls as [-> _]; auto |].
  split; [rewrite Hlog; exact Hiff |].
  split; [rewrite Hlog; exact Hfit |].
  split.
  { intros H. destruct (falls_back attempt); [| apply Hcalls].
    exfalso. apply H, Hlog. reflexivity. }
  split.
  { intros H. apply Hlog in H. rewrite H in Hcalls. apply Hcalls. }
  split; intros.
  - apply read_only_no_fit, highest_ranking_docs_read_only.
  - apply read_only_no_fit, topic_distribution_read_only.
Qed.

Lemma prepare_topic_data_fallback_witness :
  In CallFitTransform
     (log (snd (prepare_topic_data (K := RefNumpy.kernels) inductive_variant
                  ["a doc"; "b doc"] None (start unfitted_model))))
  <-> fitted unfitted_model = false \/ transform inductive_variant = None.
Proof.
  destruct (@prepare_topic_data_fallback RefNumpy.kernels inductive_variant
              unfitted_model ["a doc"; "b doc"] None [[0%Q]; [0%Q]])
    as (_ & _ & H & _).
  - right. split; reflexivity.
  - intros f Hf. inversion Hf; subst. cbn.
    split; [intros _; left; reflexivity | discriminate].
  - exact H.
Defined.

Example prepare_topic_data_unfitted_run :
  let out := prepare_topic_data (K := RefNumpy.kernels) inductive_variant
               ["a doc"; "b doc"] None (start unfitted_model) in
  is_ok (fst out) = true
  /\ log (snd out) = [CallEncode; CallTransform; CallFitTransform; CallVectorize].
Proof. vm_compute. split; reflexivity. Qed.

(** ** [prepare_topic_data]: the fields of the snapshot *)

Section Fields.

Context {K : Np.Kernels}.
Variable v : Variant.

Lemma assemble_fields (corpus : list string) (e m : Matrix) (st st' : State)
    (res : TopicData) :
  assemble v corpus e m st = (Ok res, st') -> fields_ok v res.
Proof.
  unfold assemble, bindM, emit, get_self, lift, ret. cbn.
  destruct (vectorize _ corpus); cbn; [| discriminate].
  destruct (get_vocab _); cbn; [| discriminate].
  destruct (attr _); cbn; [| discriminate].
  destruct (topic_names _); cbn; [| discriminate].
  intros H. inversion H; subst. clear H.
  split; [reflexivity |].
  intros key value Hin. cbn in Hin.
  unfold getattr_transform in Hin.
  repeat (destruct Hin as [Hin | Hin];
          [inversion Hin; subst; clear Hin |]);
    try contradiction;
    try (split; [discriminate | intros [Hk _]; discriminate Hk]).
  destruct (transform v); split; try discriminate; auto.
  intros [_ Hn]. discriminate Hn.
Qed.

End Fields.

(** C4.  Whenever [prepare_topic_data] returns a snapshot, the snapshot
    has the eight keys of [TopicData], and a value is [None] if and only if
    it is the one under "transform" and the model has no [transform]. *)
Theorem prepare_topic_data_fields (K : Np.Kernels) (v : Variant)
    (corpus : list string) (embeddings : option Matrix) (st st' : State)
    (res : TopicData) :
  prepare_topic_data v corpus embeddings st = (Ok res, st') ->
  map fst res = topic_data_keys
  /\ forall key value,
      In (key, value) res ->
      (value = VNone <-> key = "transform" /\ transform v = None).
Proof.
  unfold prepare_topic_data. unfold bindM at 1.
  destruct (match embeddings with
            | None => encode_documents v corpus
            | Some e => ret e
            end st) as [[e | ex] st1]; [| discriminate].
  unfold bindM at 1.
  destruct (transform_or_fit v corpus e st1) as [[m | ex] st2]; [| discriminate].
  apply assemble_fields.
Qed.

Lemma prepare_topic_data_fields_witness :
  exists res,
    fst (prepare_topic_data (K := RefNumpy.kernels) transductive_variant
           ["a doc"] None (start six_term_model)) = Ok res
    /\ map fst res = topic_data_keys
    /\ forall key value,
        In (key, value) res ->
        (value = VNone
         <-> key = "transform" /\ transform transductive_variant = None).
Proof.
  eexists. split.
  - vm_compute. reflexivity.
  - eapply (@prepare_topic_data_fields RefNumpy.kernels transductive_variant
              ["a doc"] None (start six_term_model)).
    vm_compute. reflexivity.
Defined.

Example prepare_topic_data_transductive_run :
  fst (prepare_topic_data (K := RefNumpy.kernels) transductive_variant
         ["a doc"] None (start six_term_model))
  = Ok [ ("corpus", VStrings ["a doc"]);
         ("document_term_matrix", VArray [[0; 0; 0; 0; 0; 0]%Q]);
         ("vocab", VStrings ["a"; "b"; "c"; "d"; "e"; "f"]);
         ("document_topic_matrix", VArray [[1 # 2; 1 # 2]%Q]);
         ("document_representation", VArray [[0%Q]]);
         ("topic_term_matrix",
          VArray [[6 # 10; 5 # 10; 4 # 10; 3 # 10; 2 # 10; 1 # 10];
                  [1 # 10; 2 # 10; 3 # 10; 4 # 10; 5 # 10; 6 # 10]]%Q);
         ("transform", VNone);
         ("topic_names", VStrings ["-1_a_b_c_d"; "0_f_e_d_c"]) ].
Proof. vm_compute. reflexivity. Qed.

(** ** [_topic_distribution]: its inputs *)

(** C5 (amended).  [_topic_distribution] fails with the input error, before
    any call on the model, when neither a text nor a distribution is
    passed.  A distribution that is passed is the one ranked, whether or
    not a text comes with it: passing both is no error, the text is
    ignored.  A text alone is sent to [transform]. *)
Theorem topic_distribution_inputs (K : Np.Kernels) (v : Variant) (st : State)
    (top_k : Z) :
  _topic_distribution v None None top_k st
  = (Err (ValueError no_input_message), st)
  /\ (forall text d,
         _topic_distribution v text (Some d) top_k st
         = (rank_topics (self_ st) d top_k, st))
  /\ (forall text,
         log (snd (_topic_distribution v (Some text) None top_k st))
         = (log st ++ [CallTransform])%list).
Proof.
  split; [reflexivity |].
  split; [reflexivity |].
  intros text.
  destruct (topic_distribution_read_only v (Some text) None top_k st)
    as [H | H]; [| rewrite H; reflexivity].
  exfalso. revert H.
  unfold _topic_distribution, try_except, call_transform, bindM, emit, raise,
    ret, get_self, lift.
  cbn.
  assert (Hne : forall l : list Event, (l ++ [CallTransform])%list <> l).
  { intros l Hl. apply (f_equal (@List.length Event)) in Hl.
    rewrite length_app in Hl. simpl in Hl. lia. }
  destruct st as [self l].
  destruct (transform v) as [f |]; cbn.
  - destruct (f [text] None self) as [m | ex]; cbn.
    + intros H. inversion H. eapply Hne; eassumption.
    + destruct (is_AttributeError ex); cbn; intros H; inversion H;
        eapply Hne; eassumption.
  - intros H. inversion H. eapply Hne; eassumption.
Qed.

(** C5 as stated fails: a call with both a text and a distribution
    succeeds. *)
Lemma topic_distribution_accepts_both :
  fst (_topic_distribution (K := RefNumpy.kernels) transductive_variant
         (Some "cheap sale") (Some [3 # 10; 7 # 10]%Q) 10
         (start six_term_model))
  = Ok [["Topic name"; "Score"]; ["0_f_e_d_c"; "0.70"]; ["-1_a_b_c_d"; "0.30"]].
Proof. vm_compute. reflexivity. Qed.

(** ** Transductive models *)

(** C6.  On a model without [transform], [_highest_ranking_docs] without a
    matrix and [_topic_distribution] with a text and no distribution fail
    with a [ValueError] whose message names the transductive case and asks
    for the document-topic matrix, respectively the topic distribution; the
    message differs from the one of the missing-input error. *)
Theorem transductive_errors (K : Np.Kernels) (v : Variant) (st : State) :
  transform v = None ->
  (forall topic_id raw_documents top_k,
      fst (_highest_ranking_docs v topic_id raw_documents None top_k st)
      = Err (ValueError
               ("Transductive methods cannot infer topical content in documents."
                ++ newline ++ "Please pass a document_topic_matrix.")))
  /\ (forall text top_k,
         fst (_topic_distribution v (Some text) None top_k st)
         = Err (ValueError
                  ("Transductive methods cannot infer topical content in documents."
                   ++ newline ++ "Please pass a topic distribution.")))
  /\ (forall what,
         prefix "Transductive methods cannot" (transductive_message what) = true
         /\ transductive_message what <> no_input_message).
Proof.
  intros Hv. split; [| split].
  - intros topic_id raw top_k.
    unfold _highest_ranking_docs, try_except, call_transform, bindM, emit,
      raise, ret, get_self, lift.
    rewrite Hv. reflexivity.
  - intros text top_k.
    unfold _topic_distribution, try_except, call_transform, bindM, emit,
      raise, ret, get_self, lift.
    rewrite Hv. reflexivity.
  - intros what. split; [reflexivity | discriminate].
Qed.

Lemma transductive_errors_witness :
  fst (_highest_ranking_docs (K := RefNumpy.kernels) transductive_variant 0
         ["a doc"] None 5 (start six_term_model))
  = Err (ValueError
           ("Transductive methods cannot infer topical content in documents."
            ++ newline ++ "Please pass a document_topic_matrix.")).
Proof.
  apply (proj1 (@transductive_errors RefNumpy.kernels transductive_variant
                  (start six_term_model) eq_refl)).
Defined.

(** ** [remove_whitespace] and the text shown for a document *)

Lemma split_cons (c : ascii) (s' : string) :
  split (String c s')
  = if isspace c then split s'
    else match s' with
         | EmptyString => [String c EmptyString]
         | String c' _ =>
             if isspace c' then String c EmptyString :: split s'
             else match split s' with
                  | w :: ws => String c w :: ws
                  | [] => [String c EmptyString]
                  end
         end.
Proof. destruct s'; reflexivity. Qed.

Lemma split_words (s : string) : Forall is_word (split s).
Proof.
  induction s as [| c s' IH].
  - constructor.
  - rewrite split_cons. destruct (isspace c) eqn:Ec; [exact IH |].
    assert (Hc : is_word (String c EmptyString)).
    { split; [discriminate | cbn; rewrite Ec; reflexivity]. }
    destruct s' as [| c' s''].
    + constructor; [exact Hc | constructor].
    + destruct (isspace c').
      * constructor; [exact Hc | exact IH].
      * destruct (split (String c' s'')) as [| w ws].
        -- constructor; [exact Hc | constructor].
        -- inversion IH as [| ? ? [_ Hw] Hws]; subst.
           constructor; [| exact Hws].
           split; [discriminate | cbn; rewrite Ec, Hw; reflexivity].
Qed.

Lemma single_spaced_word (w rest : string) :
  no_space w = true ->
  single_spaced false (w ++ rest) = single_spaced false rest.
Proof.
  induction w as [| c w IH]; cbn; intros H; [reflexivity |].
  apply andb_true_iff in H. destruct H as [Hc Hw].
  apply negb_true_iff in Hc. rewrite Hc. apply IH, Hw.
Qed.

Lemma single_spaced_start (b : bool) (w rest : string) :
  is_word w ->
  single_spaced b (w ++ rest) = single_spaced false rest.
Proof.
  intros [Hne Hw]. destruct w as [| c w]; [contradiction |].
  cbn in *. apply andb_true_iff in Hw. destruct Hw as [Hc Hw].
  apply negb_true_iff in Hc. rewrite Hc. apply single_spaced_word, Hw.
Qed.

Lemma append_nil_r (s : string) : s ++ "" = s.
Proof. induction s; cbn; congruence. Qed.

Lemma join_single_spaced (ws : list string) :
  Forall is_word ws -> ws <> [] ->
  single_spaced true (join " " ws) = true.
Proof.
  induction 1 as [| w ws Hw Hws IH]; intros Hne; [contradiction |].
  destruct ws as [| w' ws'].
  - cbn [join]. rewrite <- (append_nil_r w).
    rewrite (single_spaced_start _ _ Hw). reflexivity.
  - change (join " " (w :: w' :: ws')) with (w ++ " " ++ join " " (w' :: ws')).
    rewrite (single_spaced_start _ _ Hw).
    cbn. apply IH. discriminate.
Qed.

Lemma remove_whitespace_normalized (text : string) :
  normalized (remove_whitespace text) = true.
Proof.
  unfold remove_whitespace.
  pose proof (split_words (strip text)) as Hw.
  destruct (split (strip text)) as [| w ws] eqn:E; [reflexivity |].
  unfold normalized.
  destruct (join " " (w :: ws)) eqn:Ej; [reflexivity |].
  rewrite <- Ej. apply join_single_spaced; [exact Hw | discriminate].
Qed.

Lemma list_ascii_app (a b : string) :
  list_ascii_of_string (a ++ b)
  = (list_ascii_of_string a ++ list_ascii_of_string b)%list.
Proof. induction a; cbn; congruence. Qed.

Lemma non_space_chars_app (a b : string) :
  non_space_chars (a ++ b) = (non_space_chars a ++ non_space_chars b)%list.
Proof. unfold non_space_chars. rewrite list_ascii_app. apply filter_app. Qed.

Lemma non_space_chars_cons (c : ascii) (s : string) :
  non_space_chars (String c s)
  = if isspace c then non_space_chars s else c :: non_space_chars s.
Proof. unfold non_space_chars. cbn. destruct (isspace c); reflexivity. Qed.

Lemma non_space_chars_lstrip (s : string) :
  non_space_chars (lstrip s) = non_space_chars s.
Proof.
  induction s as [| c s IH]; [reflexivity |].
  cbn [lstrip]. destruct (isspace c) eqn:Ec; [| reflexivity].
  rewrite non_space_chars_cons, Ec. exact IH.
Qed.

Lemma non_space_chars_rstrip (s : string) :
  non_space_chars (rstrip s) = non_space_chars s.
Proof.
  induction s as [| c s IH]; [reflexivity |].
  cbn [rstrip]. rewrite (non_space_chars_cons c s), <- IH.
  destruct (rstrip s) as [| c' r].
  - destruct (isspace c) eqn:Ec; [reflexivity |].
    rewrite non_space_chars_cons, Ec. reflexivity.
  - rewrite non_space_chars_cons. reflexivity.
Qed.

Lemma non_space_chars_join (s : string) :
  non_space_chars (join " " (split s)) = non_space_chars s.
Proof.
  induction s as [| c s' IH]; [reflexivity |].
  rewrite split_cons, non_space_chars_cons.
  destruct (isspace c) eqn:Ec; [exact IH |].
  assert (Hone : non_space_chars (String c EmptyString) = [c])
    by (rewrite non_space_chars_cons, Ec; reflexivity).
  destruct s' as [| c' s''].
  - exact Hone.
  - destruct (isspace c') eqn:Ec'.
    + rewrite <- IH.
      destruct (split (String c' s'')) as [| w ws].
      * exact Hone.
      * change (join " " (String c "" :: w :: ws))
          with (String c (" " ++ join " " (w :: ws))).
        rewrite non_space_chars_cons, Ec. reflexivity.
    + rewrite <- IH.
      destruct (split (String c' s'')) as [| w ws].
      * exact Hone.
      * destruct ws as [| w' ws'].
        -- cbn [join]. rewrite non_space_chars_cons, Ec. reflexivity.
        -- change (join " " (String c w :: w' :: ws'))
             with (String c (w ++ " " ++ join " " (w' :: ws'))).
           rewrite non_space_chars_cons, Ec. reflexivity.
Qed.

Lemma remove_whitespace_keeps_chars (text : string) :
  non_space_chars (remove_whitespace text) = non_space_chars text.
Proof.
  unfold remove_whitespace, strip.
  rewrite non_space_chars_join, non_space_chars_rstrip.
  apply non_space_chars_lstrip.
Qed.

Lemma length_append (a b : string) :
  String.length (a ++ b) = (String.length a + String.length b)%nat.
Proof. induction a; cbn; congruence. Qed.

Lemma length_substring_0 (n : nat) (s : string) :
  (n <= String.length s)%nat -> String.length (substring 0 n s) = n.
Proof.
  revert s. induction n as [| n IH]; intros s H.
  - destruct s; reflexivity.
  - destruct s as [| c s]; cbn in *; [lia |].
    rewrite IH by lia. reflexivity.
Qed.

Lemma shown_document_spec (doc : string) : shows [shown_document doc] doc.
Proof.
  unfold shows.
  split; [reflexivity |].
  split; [apply remove_whitespace_normalized |].
  split; [apply remove_whitespace_keeps_chars |].
  unfold shown_document.
  destruct (Nat.ltb_spec 300 (String.length (remove_whitespace doc))) as [H | H].
  - split; [| lia]. intros _. split; [reflexivity |].
    rewrite length_append, length_substring_0 by lia. reflexivity.
  - split; [lia | reflexivity].
Qed.

Lemma Forall2_Forall_r {A B} (R : A -> B -> Prop) (l : list A) (l' : list B) :
  Forall2 R l l' -> Forall (fun y => exists x, In x l /\ R x y) l'.
Proof.
  induction 1 as [| x y l l' Hxy _ IH]; constructor.
  - exists x. split; [left; reflexivity | exact Hxy].
  - eapply Forall_impl; [| exact IH].
    intros b (a & Ha & Hab). exists a. split; [right; exact Ha | exact Hab].
Qed.

Lemma rank_documents_shown_text {K : Np.Kernels} (self : Self)
    (topic_id : Z) (raw_documents : list string) (m : Matrix) (top_k : Z)
    (grid : list (list string)) :
  rank_documents self topic_id raw_documents m top_k = Ok grid ->
  exists rows,
    grid = ["Document"; "Score"] :: rows
    /\ Forall (fun row => exists doc, In doc raw_documents /\ shows row doc) rows.
Proof.
  unfold rank_documents.
  destruct (resolve_topic self topic_id) as [j |]; cbn [bind]; [| discriminate].
  destruct (Np.column m j) as [col |]; cbn [bind]; [| discriminate].
  destruct (Np.argpartition _ _) as [part |]; cbn [bind]; [| discriminate].
  destruct (take col _) as [sel |]; cbn [bind]; [| discriminate].
  destruct (take _ _) as [high |]; cbn [bind]; [| discriminate].
  destruct (take col high) as [scores |]; cbn [bind]; [| discriminate].
  destruct (mapM _ _) as [rows |] eqn:E; cbn [bind]; [| discriminate].
  intros H. inversion H; subst. clear H.
  exists rows. split; [reflexivity |].
  apply mapM_Forall2, Forall2_Forall_r in E.
  eapply Forall_impl; [| exact E].
  intros row ([i s] & _ & Hrow).
  destruct (getitem raw_documents i) as [doc |] eqn:Ed; cbn [bind] in Hrow;
    [| discriminate].
  inversion Hrow; subst. exists doc.
  split; [apply getitem_inv in Ed; eapply nth_error_In, Ed |].
  apply shown_document_spec.
Qed.

(** C7 (amended).  Every grid [_highest_ranking_docs] returns is the
    header row followed by data rows, and every data row shows a document
    of the corpus after whitespace normalization: the only whitespace left
    is single spaces between words, none at the ends, and the other
    characters are kept in order.  When the normalized text is longer than
    300 characters the row shows its first 300 characters followed by
    "...", 303 characters in all; when it has 300 characters or fewer the
    row shows it in full. *)
Theorem highest_ranking_docs_shown_text (K : Np.Kernels) (v : Variant)
    (st : State) (topic_id : Z) (raw_documents : list string)
    (given : option Matrix) (top_k : Z) (grid : list (list string)) :
  fst (_highest_ranking_docs v topic_id raw_documents given top_k st) = Ok grid ->
  exists rows,
    grid = ["Document"; "Score"] :: rows
    /\ Forall (fun row => exists doc, In doc raw_documents /\ shows row doc) rows.
Proof.
  unfold _highest_ranking_docs, try_except, call_transform, bindM, emit,
    raise, ret, get_self, lift.
  destruct given as [m |]; cbn.
  - apply rank_documents_shown_text.
  - destruct (transform v) as [f |]; cbn; [| discriminate].
    destruct (f raw_documents None (self_ st)) as [m | ex]; cbn.
    + apply rank_documents_shown_text.
    + destruct (is_AttributeError ex); cbn; discriminate.
Qed.

Lemma highest_ranking_docs_shown_text_witness :
  exists rows,
    [["Document"; "Score"];
     [shown_document long_document; "0.75"];
     [shown_document spaced_document; "0.50"]]
    = ["Document"; "Score"] :: rows
    /\ Forall (fun row =>
                 exists doc,
                   In doc [spaced_document; long_document; "short"]
                   /\ shows row doc)
              rows.
Proof.
  apply (@highest_ranking_docs_shown_text RefNumpy.kernels transductive_variant
           (start (sale_model [])) 0
           [spaced_document; long_document; "short"]
           (Some [[1 # 2]; [3 # 4]; [1 # 3]]%Q) 5).
  vm_compute. reflexivity.
Defined.

Example long_document_truncated :
  String.length (remove_whitespace long_document) = 352%nat
  /\ shown_document long_document
     = string_of_list_ascii (repeat "x"%char 300) ++ "..."
  /\ String.length (shown_document long_document) = 303%nat.
Proof. vm_compute. repeat split. Qed.

(** C7 as stated fails: a source document longer than 300 characters
    whose normalized text is short is shown in full, not cut to 303
    characters. *)
Lemma long_source_document_not_truncated :
  String.length spaced_document = 350%nat
  /\ shown_document spaced_document = "a b"
  /\ fst (_highest_ranking_docs (K := RefNumpy.kernels) transductive_variant 0
            [spaced_document; "other"] (Some [[3 # 4]; [1 # 2]]%Q) 5
            (start (sale_model [])))
     = Ok [["Document"; "Score"]; ["a b"; "0.75"]].
Proof. vm_compute. repeat split. Qed.

(** ** Topic ids *)

Lemma map_fst_combine_firstn {A B} (l : list A) (l' : list B) :
  map fst (combine l l') = firstn (List.length l') l.
Proof.
  revert l'. induction l as [| x l IH]; intros [| y l']; cbn;
    try reflexivity.
  rewrite IH. reflexivity.
Qed.

Lemma range_length (n : nat) : List.length (range n) = n.
Proof. unfold range. rewrite length_map, length_seq. reflexivity. Qed.

Section TopicIds.

Context {K : Np.Kernels}.

Lemma get_topics_ids (self : Self) (components : Matrix) (top_k : Z)
    (topics : list (Z * list (string * Q))) :
  components_ self = Some components ->
  get_topics self top_k = Ok topics ->
  map fst topics
  = firstn (List.length components)
           (classes_of self (List.length components)).
Proof.
  intros Hc. unfold get_topics. rewrite Hc. cbn [attr bind].
  fold (classes_of self (List.length components)).
  destruct (Np.argpartition_rows _ top_k) as [parts |] eqn:Ep; cbn [bind];
    [| discriminate].
  destruct (get_vocab self) as [vocab |]; cbn [bind]; [| discriminate].
  destruct (mapM _ _) as [top_score |] eqn:Em; cbn [bind]; [| discriminate].
  intros H. inversion H; subst. clear H.
  apply mapM_length in Ep, Em.
  rewrite length_map in Ep.
  rewrite length_combine, length_map, Ep, Nat.min_id in Em.
  rewrite map_map.
  rewrite (map_ext _ (fun p : Z * (list string * Vector) => fst p))
    by (intros [topic [words scores]]; reflexivity).
  rewrite map_fst_combine_firstn, Em. reflexivity.
Qed.

End TopicIds.

(** C8.  On a fitted model, [get_feature_names_out] returns the learned
    label set when there is one and [0 .. n_topics - 1] otherwise, where
    [n_topics] is the number of rows of the topic-term matrix; the topic
    ids of every result of [get_topics] are taken from the learned label
    set, in its order, when there is one, and are exactly
    [0 .. n_topics - 1] otherwise. *)
Theorem topic_ids_from_labels_or_range (K : Np.Kernels) (self : Self)
    (components : Matrix) :
  components_ self = Some components ->
  (exists ids,
      get_feature_names_out self = Ok ids
      /\ (forall classes, classes_ self = Some classes -> ids = classes)
      /\ (classes_ self = None -> ids = range (List.length components)))
  /\ (forall top_k topics,
         get_topics self top_k = Ok topics ->
         (forall classes, classes_ self = Some classes ->
                          map fst topics = firstn (List.length components) classes
                          /\ incl (map fst topics) classes)
         /\ (classes_ self = None ->
             map fst topics = range (List.length components))).
Proof.
  intros Hc. split.
  - unfold get_feature_names_out. rewrite Hc. cbn [attr bind].
    eexists. split; [reflexivity |].
    split.
    + intros classes Hcl. rewrite Hcl. reflexivity.
    + intros Hcl. rewrite Hcl. reflexivity.
  - intros top_k topics Ht.
    pose proof (get_topics_ids self top_k Hc Ht) as Hids.
    unfold classes_of in Hids.
    split.
    + intros classes Hcl. rewrite Hcl in Hids. split; [exact Hids |].
      rewrite Hids. intros x Hx. eapply In_firstn, Hx.
    + intros Hcl. rewrite Hcl in Hids. rewrite Hids.
      apply firstn_all2. rewrite range_length. lia.
Qed.

Lemma topic_ids_from_labels_or_range_witness :
  (exists ids,
      get_feature_names_out six_term_model = Ok ids
      /\ (forall classes, classes_ six_term_model = Some classes -> ids = classes)
      /\ (classes_ six_term_model = None -> ids = range 2))
  /\ (forall top_k topics,
         get_topics (K := RefNumpy.kernels) six_term_model top_k = Ok topics ->
         (forall classes, classes_ six_term_model = Some classes ->
                          map fst topics = firstn 2 classes
                          /\ incl (map fst topics) classes)
         /\ (classes_ six_term_model = None -> map fst topics = range 2)).
Proof.
  apply (@topic_ids_from_labels_or_range RefNumpy.kernels six_term_model
           [[6 # 10; 5 # 10; 4 # 10; 3 # 10; 2 # 10; 1 # 10];
            [1 # 10; 2 # 10; 3 # 10; 4 # 10; 5 # 10; 6 # 10]]%Q).
  reflexivity.
Defined.

Example get_topics_outlier_label :
  get_topics (K := RefNumpy.kernels) six_term_model 2
  = Ok [(-1, [("a", 6 # 10); ("b", 5 # 10)]%Q);
        (0, [("f", 6 # 10); ("e", 5 # 10)]%Q)].
Proof. vm_compute. reflexivity. Qed.

(** ** [topic_names] *)

Section TopicNames.

Context {K : Np.Kernels} {L : Np.Laws K}.

Lemma top_terms_length (vocab : list string) (component : Vector) (k : nat) :
  (k < List.length component)%nat ->
  List.length (top_terms vocab component k) = k.
Proof.
  intros Hk. unfold top_terms.
  destruct (ranked_spec component Hk) as (Hl & _).
  rewrite length_combine, !length_map, Hl. lia.
Qed.

(** With more than four terms in the vocabulary and one label per topic,
    [topic_names] returns one name per topic, built from the four terms
    [get_topics] reports for it. *)
Lemma topic_names_large_vocab (self : Self) (components : Matrix)
    (vocab : list string) :
  components_ self = Some components ->
  get_vocab self = Ok vocab ->
  Forall (fun row => List.length row = List.length vocab) components ->
  (4 < List.length vocab)%nat ->
  List.length (classes_of self (List.length components))
  = List.length components ->
  exists topics names,
    get_topics self 4 = Ok topics
    /\ topic_names self = Ok names
    /\ List.length names = List.length components
    /\ Forall2 four_word_name topics names.
Proof.
  intros Hc Hv Hrows HV Hcl.
  pose proof (get_topics_eq self (top_k := 4) Hc Hv Hrows ltac:(lia)) as Ht.
  eexists. eexists. split; [exact Ht |].
  unfold topic_names. rewrite Ht. cbn [bind].
  split; [reflexivity |].
  split; [rewrite !length_map, length_combine, Hcl; apply Nat.min_id |].
  rewrite <- (map_id (map _ (combine _ components))) at 1.
  rewrite !map_map.
  set (pairs := combine (classes_of self (List.length components)) components).
  assert (Hin : forall p, In p pairs -> List.length (snd p) = List.length vocab).
  { intros [c row] Hp. apply in_combine_r in Hp.
    rewrite Forall_forall in Hrows. apply Hrows, Hp. }
  clearbody pairs. induction pairs as [| [c row] pairs IH]; cbn [map].
  - constructor.
  - constructor; [| apply IH; intros p Hp; apply Hin; right; exact Hp].
    cbn [fst snd id].
    assert (Hlen : List.length (top_terms vocab row (Z.to_nat 4)) = 4%nat).
    { apply top_terms_length. specialize (Hin (c, row) (or_introl eq_refl)).
      cbn in Hin. change (Z.to_nat 4) with 4%nat. lia. }
    unfold four_word_name, name_of_topic. cbn [fst snd].
    assert (Hm : List.length (map fst (top_terms vocab row (Z.to_nat 4))) = 4%nat)
      by (rewrite length_map; exact Hlen).
    destruct (map fst (top_terms vocab row (Z.to_nat 4)))
      as [| w1 [| w2 [| w3 [| w4 [| w5 r]]]]]; try discriminate Hm.
    exists w1, w2, w3, w4. split; reflexivity.
Qed.

End TopicNames.

(** C9 at a vocabulary of exactly four terms: [topic_names] asks
    [get_topics] for the four highest terms, [get_topics] partitions at
    position 4 of a row of length 4, and the call raises instead of
    returning the names [0_a_b_c_d] and [1_d_c_b_a]. *)
Theorem topic_names_four_terms (K : Np.Kernels) :
  topic_names four_term_model
  = Err (ValueError "kth(=4) out of bounds (4)").
Proof. reflexivity. Qed.

Example topic_names_six_terms :
  topic_names (K := RefNumpy.kernels) six_term_model
  = Ok ["-1_a_b_c_d"; "0_f_e_d_c"].
Proof. vm_compute. reflexivity. Qed.


(** * Further properties *)

(** ** [get_topics]: any [top_k] numpy accepts *)

Section GetTopicsAnyK.

Context {K : Np.Kernels} {L : Np.Laws K}.

Lemma argpartition_valid (a : Vector) (kth : Z) :
  - Z.of_nat (List.length a) <= kth < Z.of_nat (List.length a) ->
  Np.argpartition a kth
  = Ok (Np.introselect a (term_count kth (List.length a))).
Proof.
  intros H. unfold Np.argpartition, term_count. cbv zeta.
  destruct (Z.eqb_spec (Z.of_nat (List.length a)) 0); [lia |].
  destruct (Z.ltb_spec kth 0).
  - destruct (Z.ltb_spec (kth + Z.of_nat (List.length a)) 0); [lia |].
    destruct (Z.leb_spec (Z.of_nat (List.length a))
                         (kth + Z.of_nat (List.length a))); [lia |].
    reflexivity.
  - destruct (Z.ltb_spec kth 0); [lia |].
    destruct (Z.leb_spec (Z.of_nat (List.length a)) kth); [lia |].
    reflexivity.
Qed.

Lemma term_count_lt (top_k : Z) (n : nat) :
  - Z.of_nat n <= top_k < Z.of_nat n -> (term_count top_k n < n)%nat.
Proof.
  intros H. unfold term_count. destruct (Z.ltb_spec top_k 0); lia.
Qed.

Lemma slice_partition (row : Vector) (top_k : Z) :
  - Z.of_nat (List.length row) <= top_k < Z.of_nat (List.length row) ->
  slice_to top_k
    (Np.introselect (Np.neg row) (term_count top_k (List.length row)))
  = selected row (term_count top_k (List.length row)).
Proof.
  intros H. unfold slice_to, selected, term_count.
  destruct (Z.ltb_spec top_k 0); [| reflexivity].
  rewrite (Permutation_length
             (partition_perm row (k := Z.to_nat (top_k + Z.of_nat (List.length row)))
                ltac:(lia))).
  rewrite length_seq. f_equal. lia.
Qed.

Lemma get_topics_any_k (self : Self) (components : Matrix)
    (vocab : list string) (top_k : Z) :
  components_ self = Some components ->
  get_vocab self = Ok vocab ->
  Forall (fun row => List.length row = List.length vocab) components ->
  - Z.of_nat (List.length vocab) <= top_k < Z.of_nat (List.length vocab) ->
  get_topics self top_k
  = Ok (map (fun p => (fst p,
                       top_terms vocab (snd p)
                         (term_count top_k (List.length vocab))))
            (combine (classes_of self (List.length components)) components)).
Proof.
  intros Hc Hv Hrows Hk. unfold get_topics. rewrite Hc. cbn [attr bind].
  rewrite Forall_forall in Hrows.
  unfold Np.argpartition_rows.
  rewrite (mapM_ok _ (fun a => Np.introselect a
                                 (term_count top_k (List.length vocab)))).
  2:{ apply Forall_forall. intros a Ha. apply in_map_iff in Ha.
      destruct Ha as (row & <- & Hrow).
      rewrite <- (Hrows _ Hrow), <- (length_neg row).
      apply argpartition_valid. rewrite length_neg, (Hrows _ Hrow). exact Hk. }
  cbn [bind]. rewrite Hv. cbn [bind].
  rewrite !map_map.
  rewrite (map_ext_in _ (fun row => selected row
                                      (term_count top_k (List.length vocab)))).
  2:{ intros row Hrow. rewrite <- (Hrows _ Hrow).
      apply slice_partition. rewrite (Hrows _ Hrow). exact Hk. }
  rewrite combine_map_self.
  rewrite (mapM_ok _ (fun rs : Vector * list nat =>
             (map (fun i => nth i vocab "") (reorder (fst rs) (snd rs)),
              map (Np.at_ (fst rs)) (reorder (fst rs) (snd rs))))).
  2:{ apply Forall_forall. intros [row sel] Hin. apply in_map_iff in Hin.
      destruct Hin as (row' & Heq & Hrow). inversion Heq; subst. cbn [fst snd].
      apply rank_selected_eq; [exact (Hrows _ Hrow) |].
      apply selected_bound. rewrite (Hrows _ Hrow).
      apply term_count_lt, Hk. }
  cbn [bind]. f_equal. rewrite map_map.
  fold (classes_of self (List.length components)).
  rewrite combine_map_r, map_map. apply map_ext.
  intros [topic row]. reflexivity.
Qed.

Lemma top_terms_heaviest (vocab : list string) (row : Vector) (k : nat) :
  List.length row = List.length vocab ->
  (k < List.length vocab)%nat ->
  heaviest vocab row (top_terms vocab row k).
Proof.
  intros Hlen Hk. rewrite <- Hlen in Hk.
  destruct (ranked_spec row Hk) as (_ & _ & Hb & _ & Ht).
  unfold heaviest, top_terms.
  assert (Hll : List.length (map (fun i => nth i vocab "") (ranked row k))
                = List.length (map (Np.at_ row) (ranked row k)))
    by (rewrite !length_map; reflexivity).
  rewrite (map_fst_combine _ _ Hll), (map_snd_combine _ _ Hll).
  intros j w s Hj Hnot Hs.
  apply in_map_iff in Hs. destruct Hs as (i & <- & Hi).
  apply Ht; [| | exact Hi].
  - rewrite Hlen. apply nth_error_Some. congruence.
  - intros Hin. apply Hnot. apply in_map_iff. exists j. split; [| exact Hin].
    apply nth_error_nth. exact Hj.
Qed.

Lemma nth_error_topics (self : Self) (components : Matrix)
    (f : Vector -> list (string * Q)) (t : nat) (row : Vector)
    (entry : Z * list (string * Q)) :
  nth_error components t = Some row ->
  nth_error (map (fun p => (fst p, f (snd p)))
                 (combine (classes_of self (List.length components)) components)) t
  = Some entry ->
  snd entry = f row.
Proof.
  intros Hrow Hentry. rewrite nth_error_map in Hentry.
  destruct (nth_error (combine _ components) t) as [[c row'] |] eqn:E;
    [| discriminate].
  apply nth_error_combine in E. destruct E as [_ E].
  assert (row' = row) by congruence. subst row'.
  cbn in Hentry. inversion Hentry. reflexivity.
Qed.

End GetTopicsAnyK.

(** X1.  On a fitted model whose rows have one weight per vocabulary term,
    for [0 <= top_k < vocab_size], the terms [get_topics] lists for a topic
    are the heaviest of its row: no term left out weighs more than a
    listed one. *)
Theorem get_topics_heaviest (K : Np.Kernels) (L : Np.Laws K) (self : Self)
    (components : Matrix) (vocab : list string) (top_k : Z) :
  components_ self = Some components ->
  get_vocab self = Ok vocab ->
  Forall (fun row => List.length row = List.length vocab) components ->
  0 <= top_k < Z.of_nat (List.length vocab) ->
  exists topics,
    get_topics self top_k = Ok topics
    /\ forall t row entry,
        nth_error components t = Some row ->
        nth_error topics t = Some entry ->
        heaviest vocab row (snd entry).
Proof.
  intros Hc Hv Hrows Hk.
  eexists. split; [apply (get_topics_any_k self Hc Hv Hrows); lia |].
  intros t row entry Hrow Hentry.
  rewrite (nth_error_topics self components
             (fun r => top_terms vocab r (term_count top_k (List.length vocab)))
             t Hrow Hentry).
  apply top_terms_heaviest.
  - rewrite Forall_forall in Hrows. eapply Hrows, nth_error_In, Hrow.
  - apply term_count_lt. lia.
Qed.

Lemma get_topics_heaviest_witness :
  exists topics,
    get_topics (K := RefNumpy.kernels) six_term_model 2 = Ok topics
    /\ forall t row entry,
        nth_error [[6 # 10; 5 # 10; 4 # 10; 3 # 10; 2 # 10; 1 # 10];
                   [1 # 10; 2 # 10; 3 # 10; 4 # 10; 5 # 10; 6 # 10]]%Q t
        = Some row ->
        nth_error topics t = Some entry ->
        heaviest ["a"; "b"; "c"; "d"; "e"; "f"] row (snd entry).
Proof.
  apply (@get_topics_heaviest RefNumpy.kernels ref_laws six_term_model
           [[6 # 10; 5 # 10; 4 # 10; 3 # 10; 2 # 10; 1 # 10];
            [1 # 10; 2 # 10; 3 # 10; 4 # 10; 5 # 10; 6 # 10]]%Q
           ["a"; "b"; "c"; "d"; "e"; "f"] 2).
  - reflexivity.
  - reflexivity.
  - repeat constructor.
  - simpl. lia.
Defined.

(** X2.  A negative [top_k] no smaller than [- vocab_size] is accepted:
    [get_topics] then drops the [- top_k] lightest terms of every topic and
    lists the other [vocab_size + top_k], heaviest first. *)
Theorem get_topics_negative_top_k (K : Np.Kernels) (L : Np.Laws K)
    (self : Self) (components : Matrix) (vocab : list string) (top_k : Z) :
  components_ self = Some components ->
  get_vocab self = Ok vocab ->
  Forall (fun row => List.length row = List.length vocab) components ->
  - Z.of_nat (List.length vocab) <= top_k < 0 ->
  exists topics,
    get_topics self top_k = Ok topics
    /\ forall t row entry,
        nth_error components t = Some row ->
        nth_error topics t = Some entry ->
        List.length (snd entry) = Z.to_nat (Z.of_nat (List.length vocab) + top_k)
        /\ non_increasing (map snd (snd entry))
        /\ heaviest vocab row (snd entry).
Proof.
  intros Hc Hv Hrows Hk.
  eexists. split; [apply (get_topics_any_k self Hc Hv Hrows); lia |].
  intros t row entry Hrow Hentry.
  rewrite (nth_error_topics self components
             (fun r => top_terms vocab r (term_count top_k (List.length vocab)))
             t Hrow Hentry).
  assert (Hlen : List.length row = List.length vocab).
  { rewrite Forall_forall in Hrows. eapply Hrows, nth_error_In, Hrow. }
  assert (Hlt : (term_count top_k (List.length vocab) < List.length vocab)%nat)
    by (apply term_count_lt; lia).
  assert (Hcount : term_count top_k (List.length vocab)
                   = Z.to_nat (Z.of_nat (List.length vocab) + top_k)).
  { unfold term_count. destruct (Z.ltb_spec top_k 0); [f_equal; lia | lia]. }
  split; [| split].
  - rewrite <- Hcount. apply top_terms_length. rewrite Hlen. exact Hlt.
  - unfold top_terms. rewrite map_snd_combine by (rewrite !length_map; reflexivity).
    apply reorder_sorted.
  - apply top_terms_heaviest; assumption.
Qed.

Lemma get_topics_negative_top_k_witness :
  exists topics,
    get_topics (K := RefNumpy.kernels) (sale_model []) (-1) = Ok topics
    /\ forall t row entry,
        nth_error [sale_row] t = Some row ->
        nth_error topics t = Some entry ->
        List.length (snd entry) = 2%nat
        /\ non_increasing (map snd (snd entry))
        /\ heaviest sale_vocab row (snd entry).
Proof.
  apply (@get_topics_negative_top_k RefNumpy.kernels ref_laws (sale_model [])
           [sale_row] sale_vocab (-1)).
  - reflexivity.
  - reflexivity.
  - repeat constructor.
  - simpl. lia.
Defined.






(** ** [_topics_table] *)

(** X5.  On a fitted model, for [0 <= top_k < vocab_size], [_topics_table]
    returns a rectangular grid: the header ["Topic ID"; "Top k Words"] and
    one row of two cells per topic reported by [get_topics], whose first
    cell is the topic id. *)
Theorem topics_table_shape (K : Np.Kernels) (L : Np.Laws K) (self : Self)
    (components : Matrix) (vocab : list string) (top_k : Z)
    (show_scores : bool) :
  components_ self = Some components ->
  get_vocab self = Ok vocab ->
  Forall (fun row => List.length row = List.length vocab) components ->
  0 <= top_k < Z.of_nat (List.length vocab) ->
  exists rows,
    _topics_table self top_k show_scores
    = Ok (["Topic ID"; "Top " ++ str_of_Z top_k ++ " Words"] :: rows)
    /\ List.length rows
       = Nat.min (List.length (classes_of self (List.length components)))
                 (List.length components)
    /\ Forall (fun row => List.length row = 2%nat) rows
    /\ map (hd "") rows
       = map str_of_Z (firstn (List.length components)
                              (classes_of self (List.length components))).
Proof.
  intros Hc Hv Hrows Hk.
  unfold _topics_table.
  rewrite (get_topics_any_k self Hc Hv Hrows) by lia. cbn [bind].
  eexists. split; [reflexivity |].
  split; [rewrite !length_map, length_combine; reflexivity |].
  split.
  - apply Forall_forall. intros r Hr. rewrite map_map in Hr.
    apply in_map_iff in Hr. destruct Hr as ([c row] & <- & _). reflexivity.
  - rewrite !map_map. cbn [fst snd hd].
    rewrite <- (map_map fst str_of_Z), map_fst_combine_firstn. reflexivity.
Qed.

Lemma topics_table_shape_witness :
  exists rows,
    _topics_table (K := RefNumpy.kernels) six_term_model 3 true
    = Ok (["Topic ID"; "Top " ++ str_of_Z 3 ++ " Words"] :: rows)
    /\ List.length rows = 2%nat
    /\ Forall (fun row => List.length row = 2%nat) rows
    /\ map (hd "") rows = map str_of_Z [-1; 0].
Proof.
  apply (@topics_table_shape RefNumpy.kernels ref_laws six_term_model
           [[6 # 10; 5 # 10; 4 # 10; 3 # 10; 2 # 10; 1 # 10];
            [1 # 10; 2 # 10; 3 # 10; 4 # 10; 5 # 10; 6 # 10]]%Q
           ["a"; "b"; "c"; "d"; "e"; "f"] 3 true).
  - reflexivity.
  - reflexivity.
  - repeat constructor.
  - simpl. lia.
Defined.

Example topics_table_run :
  _topics_table (K := RefNumpy.kernels) six_term_model 3 true
  = Ok [["Topic ID"; "Top 3 Words"];
        ["-1"; "a(0.60), b(0.50), c(0.40)"];
        ["0"; "f(0.60), e(0.50), d(0.40)"]].
Proof. vm_compute. reflexivity. Qed.

(** ** [_topic_distribution]: the ranking *)

Section Distribution.

Context {K : Np.Kernels} {L : Np.Laws K}.

Lemma argsort_neg_bound (d : Vector) :
  Forall (fun i => (i < List.length d)%nat) (Np.argsort (Np.neg d)).
Proof.
  assert (H := @perm_seq_bound _ _ (argsort_perm (Np.neg d))).
  rewrite length_neg in H. exact H.
Qed.




End Distribution.



(** ** [_highest_ranking_docs]: the topic column *)

Lemma index_of_In (l : list Z) (x : Z) :
  In x l ->
  exists i,
    index_of l x = Ok i
    /\ nth_error l i = Some x
    /\ forall j, (j < i)%nat -> nth_error l j <> Some x.
Proof.
  induction l as [| y l IH]; intros Hin; [contradiction |].
  cbn [index_of]. destruct (Z.eqb_spec y x) as [-> | Hne].
  - exists O. repeat split. intros j Hj. lia.
  - destruct Hin as [Hy | Hin]; [contradiction |].
    destruct (IH Hin) as (i & Hi & Hnth & Hfirst).
    exists (S i). rewrite Hi. repeat split; [exact Hnth |].
    intros [| j] Hj; cbn; [congruence | apply Hfirst; lia].
Qed.

Lemma index_of_not_In (l : list Z) (x : Z) :
  ~ In x l ->
  index_of l x = Err (ValueError (str_of_Z x ++ " is not in list")).
Proof.
  induction l as [| y l IH]; intros Hnot; [reflexivity |].
  cbn [index_of]. destruct (Z.eqb_spec y x) as [-> | Hne].
  - exfalso. apply Hnot. left. reflexivity.
  - rewrite IH; [reflexivity |]. intros Hin. apply Hnot. right. exact Hin.
Qed.

(** X7.  On a model with a learned label set, [_highest_ranking_docs]
    ranks by the column at the first position of [topic_id] in the label
    set, and raises [ValueError] ("... is not in list") for a [topic_id]
    that is not a label, whatever matrix is passed. *)
Theorem highest_ranking_docs_label_lookup (K : Np.Kernels) (self : Self)
    (classes : list Z) (topic_id : Z) :
  classes_ self = Some classes ->
  (In topic_id classes ->
   exists i,
     resolve_topic self topic_id = Ok (Z.of_nat i)
     /\ nth_error classes i = Some topic_id
     /\ forall j, (j < i)%nat -> nth_error classes j <> Some topic_id)
  /\ (~ In topic_id classes ->
      forall v raw_documents m top_k st,
        self_ st = self ->
        fst (_highest_ranking_docs v topic_id raw_documents (Some m) top_k st)
        = Err (ValueError (str_of_Z topic_id ++ " is not in list"))).
Proof.
  intros Hcl. split.
  - intros Hin. destruct (index_of_In _ _ Hin) as (i & Hi & Hnth & Hfirst).
    exists i. unfold resolve_topic. rewrite Hcl, Hi. auto.
  - intros Hnot v raw m top_k st Hst.
    unfold _highest_ranking_docs, bindM, ret, get_self, lift. cbn.
    unfold rank_documents, resolve_topic.
    rewrite Hst, Hcl, (index_of_not_In _ _ Hnot). reflexivity.
Qed.

Lemma highest_ranking_docs_label_lookup_witness :
  fst (_highest_ranking_docs (K := RefNumpy.kernels) transductive_variant 7
         ["a doc"; "b doc"] (Some [[1 # 2; 1 # 2]; [1 # 3; 2 # 3]]%Q) 5
         (start six_term_model))
  = Err (ValueError (str_of_Z 7 ++ " is not in list")).
Proof.
  apply (proj2 (@highest_ranking_docs_label_lookup RefNumpy.kernels
                  six_term_model [-1; 0] 7 eq_refl)).
  - simpl. intuition discriminate.
  - reflexivity.
Defined.






(** ** How the outcome of [transform] is used *)



(** ** [remove_whitespace]: more *)

Lemma split_lstrip (s : string) : split (lstrip s) = split s.
Proof.
  induction s as [| c s IH]; [reflexivity |].
  cbn [lstrip]. destruct (isspace c) eqn:Ec; [| reflexivity].
  rewrite (split_cons c s), Ec. exact IH.
Qed.

Lemma rstrip_empty_split (s : string) : rstrip s = "" -> split s = [].
Proof.
  induction s as [| c s IH]; [reflexivity |].
  cbn [rstrip]. destruct (rstrip s) as [| c' r]; [| discriminate].
  destruct (isspace c) eqn:Ec; [| discriminate].
  intros _. rewrite split_cons, Ec. apply IH. reflexivity.
Qed.

Lemma rstrip_head (s : string) (c : ascii) (r : string) :
  rstrip s = String c r -> exists tail, s = String c tail.
Proof.
  destruct s as [| c0 s']; [discriminate |].
  cbn [rstrip]. destruct (rstrip s') as [| c' r'].
  - destruct (isspace c0); [discriminate |].
    intros H. inversion H. eauto.
  - intros H. inversion H. eauto.
Qed.

Lemma split_rstrip (s : string) : split (rstrip s) = split s.
Proof.
  induction s as [| c s' IH]; [reflexivity |].
  cbn [rstrip]. destruct (rstrip s') as [| c' r] eqn:Er.
  - pose proof (rstrip_empty_split s' Er) as Hs.
    rewrite (split_cons c s'), Hs.
    destruct (isspace c) eqn:Ec; [reflexivity |].
    rewrite split_cons, Ec.
    destruct s' as [| c0 s0]; [reflexivity |].
    destruct (isspace c0); reflexivity.
  - destruct (rstrip_head s' Er) as (tail & ->).
    rewrite (split_cons c (String c' r)), (split_cons c (String c' tail)), IH.
    reflexivity.
Qed.

Lemma split_strip (s : string) : split (strip s) = split s.
Proof. unfold strip. rewrite split_rstrip. apply split_lstrip. Qed.

Lemma split_one_word (w : string) (c : ascii) :
  isspace c = false -> no_space w = true ->
  split (String c w) = [String c w].
Proof.
  revert c. induction w as [| c' w IH]; intros c Hc Hw.
  - rewrite split_cons, Hc. reflexivity.
  - cbn [no_space] in Hw. apply andb_true_iff in Hw. destruct Hw as [Hc' Hw].
    apply negb_true_iff in Hc'.
    rewrite split_cons, Hc, Hc', (IH c' Hc' Hw). reflexivity.
Qed.

Lemma split_word_then_space (w s : string) (c : ascii) :
  isspace c = false -> no_space w = true ->
  split (String c w ++ String " " s) = String c w :: split s.
Proof.
  revert c. induction w as [| c' w IH]; intros c Hc Hw.
  - cbn [append]. rewrite split_cons, Hc. cbn [isspace]. 
    rewrite (split_cons " " s). reflexivity.
  - cbn [no_space] in Hw. apply andb_true_iff in Hw. destruct Hw as [Hc' Hw].
    apply negb_true_iff in Hc'.
    specialize (IH c' Hc' Hw).
    cbn [append] in *. rewrite split_cons, Hc. cbv iota beta.
    rewrite Hc', IH. reflexivity.
Qed.

Lemma split_join (ws : list string) :
  Forall is_word ws -> split (join " " ws) = ws.
Proof.
  induction 1 as [| w ws [Hne Hw] Hws IH]; [reflexivity |].
  destruct w as [| c w]; [contradiction |].
  cbn [no_space] in Hw. apply andb_true_iff in Hw. destruct Hw as [Hc Hw].
  apply negb_true_iff in Hc.
  destruct ws as [| w' ws'].
  - cbn [join]. apply split_one_word; assumption.
  - change (join " " (String c w :: w' :: ws'))
      with (String c w ++ String " " (join " " (w' :: ws'))).
    rewrite (@split_word_then_space w _ c Hc Hw), IH. reflexivity.
Qed.

(** X10.  The [strip] in [remove_whitespace] changes nothing, [split]
    alone drops the whitespace at the ends; and normalizing twice is
    normalizing once. *)
Theorem remove_whitespace_idempotent (text : string) :
  remove_whitespace text = join " " (split text)
  /\ remove_whitespace (remove_whitespace text) = remove_whitespace text.
Proof.
  assert (H : forall t, remove_whitespace t = join " " (split t))
    by (intros t; unfold remove_whitespace; rewrite split_strip; reflexivity).
  split; [apply H |].
  rewrite (H (remove_whitespace text)), (H text).
  rewrite split_join by apply split_words. reflexivity.
Qed.

Lemma join_split_length (s : string) :
  (String.length (join " " (split s)) <= String.length s)%nat
  /\ (forall c s', s = String c s' -> isspace c = true ->
                   (String.length (join " " (split s)) < String.length s)%nat).
Proof.
  induction s as [| c s' [IH1 IH2]].
  - split; [cbn; lia | intros c s' H; discriminate H].
  - rewrite split_cons.
    destruct (isspace c) eqn:Ec.
    + split; [cbn [String.length]; lia |].
      intros c0 s0 _ _. cbn [String.length]. lia.
    + split; [| intros c0 s0 H Hc0; inversion H; subst; congruence].
      destruct s' as [| c' s''].
      * cbn. lia.
      * destruct (isspace c') eqn:Ec'.
        -- specialize (IH2 c' s'' eq_refl Ec').
           destruct (split (String c' s'')) as [| w ws].
           ++ cbn. lia.
           ++ change (join " " (String c "" :: w :: ws))
                with (String c (String " " (join " " (w :: ws)))).
              cbn [String.length] in *. lia.
        -- destruct (split (String c' s'')) as [| w ws].
           ++ cbn. lia.
           ++ destruct ws as [| w' ws'].
              ** cbn [join String.length] in *. lia.
              ** change (join " " (String c w :: w' :: ws'))
                   with (String c (join " " (w :: w' :: ws'))).
                 cbn [String.length] in *. lia.
Qed.

(** X11.  Normalization never lengthens a text, so the text shown for a
    document in [_highest_ranking_docs] is never longer than the document
    plus the three characters of the ellipsis, and never longer than 303
    characters. *)
Theorem shown_document_length (doc : string) :
  (String.length (remove_whitespace doc) <= String.length doc)%nat
  /\ (String.length (shown_document doc) <= 303)%nat
  /\ (String.length (shown_document doc) <= String.length doc + 3)%nat.
Proof.
  assert (H : (String.length (remove_whitespace doc) <= String.length doc)%nat).
  { unfold remove_whitespace. rewrite split_strip. apply join_split_length. }
  split; [exact H |].
  unfold shown_document.
  destruct (Nat.ltb_spec 300 (String.length (remove_whitespace doc))) as [Hl | Hl].
  - rewrite length_append, length_substring_0 by lia. cbn [String.length]. lia.
  - lia.
Qed.

Lemma split_blank (s : string) : non_space_chars s = [] -> split s = [].
Proof.
  induction s as [| c s IH]; [reflexivity |].
  rewrite non_space_chars_cons, split_cons.
  destruct (isspace c); [exact IH | discriminate].
Qed.

(** X12.  A document is shown as the empty text exactly when it holds
    nothing but whitespace. *)
Theorem shown_document_blank (doc : string) :
  shown_document doc = "" <-> non_space_chars doc = [].
Proof.
  split.
  - intros H. rewrite <- remove_whitespace_keeps_chars.
    unfold shown_document in H.
    destruct (300 <? String.length (remove_whitespace doc))%nat eqn:E.
    + apply Nat.ltb_lt in E.
      apply (f_equal String.length) in H.
      rewrite length_append, length_substring_0 in H by lia.
      cbn in H. lia.
    + rewrite H. reflexivity.
  - intros H.
    assert (Hr : remove_whitespace doc = "").
    { unfold remove_whitespace. rewrite split_strip, (split_blank _ H).
      reflexivity. }
    unfold shown_document. rewrite Hr. reflexivity.
Qed.

(** ** [prepare_topic_data]: reuse of a fit, and errors *)

Section PrepareMore.

Context {K : Np.Kernels}.
Variable v : Variant.

Lemma prepare_topic_data_attempt (corpus : list string)
    (embeddings : option Matrix) (e : Matrix) (st : State) :
  embeddings = Some e \/ (embeddings = None /\ encode v corpus = Ok e) ->
  falls_back (transform_attempt v corpus e (self_ st)) = false ->
  prepare_topic_data v corpus embeddings st
  = match transform_attempt v corpus e (self_ st) with
    | Ok m =>
        assemble v corpus e m
          {| self_ := self_ st;
             log := (log (after_embeddings embeddings st) ++ [CallTransform])%list |}
    | Err ex =>
        (Err ex,
         {| self_ := self_ st;
            log := (log (after_embeddings embeddings st) ++ [CallTransform])%list |})
    end.
Proof.
  intros Hemb Hfb.
  rewrite (prepare_topic_data_run v corpus st Hemb).
  pose proof (transform_or_fit_run v corpus e (after_embeddings embeddings st))
    as Hrun.
  cbn zeta in Hrun. cbn [after_embeddings self_] in Hrun.
  fold (falls_back (transform_attempt v corpus e (self_ st))) in Hrun.
  rewrite Hfb in Hrun.
  unfold bindM. cbn [after_embeddings self_ log] in *. rewrite Hrun.
  destruct (transform_attempt v corpus e (self_ st)); reflexivity.
Qed.

Lemma assemble_entries (corpus : list string) (e m : Matrix) (st st' : State)
    (res : TopicData) :
  assemble v corpus e m st = (Ok res, st') ->
  In ("corpus", VStrings corpus) res
  /\ In ("document_topic_matrix", VArray m) res
  /\ In ("document_representation", VArray e) res.
Proof.
  unfold assemble, bindM, emit, get_self, lift, ret. cbn.
  destruct (vectorize _ corpus); cbn; [| discriminate].
  destruct (get_vocab _); cbn; [| discriminate].
  destruct (attr _); cbn; [| discriminate].
  destruct (topic_names _); cbn; [| discriminate].
  intros H. inversion H; subst. cbn. tauto.
Qed.

End PrepareMore.

(** X13.  After [fit] on a model whose [transform] then succeeds,
    [prepare_topic_data] does not fit again: the only calls on the model
    are the [fit_transform] of [fit] and one [transform], the learned state
    stays the one [fit] left, and the snapshot, when one is returned, holds
    the corpus, the embeddings and the matrix [transform] computed. *)
Theorem fit_then_prepare_topic_data (K : Np.Kernels) (v : Variant)
    (self self1 : Self) (docs : list string) (emb0 : option Matrix)
    (m0 : Matrix) (corpus : list string) (embeddings : option Matrix)
    (e m : Matrix)
    (f : list string -> option Matrix -> Self -> Result Matrix) :
  fit_transform v docs emb0 self = (Ok m0, self1) ->
  transform v = Some f ->
  f corpus (Some e) self1 = Ok m ->
  embeddings = Some e \/ (embeddings = None /\ encode v corpus = Ok e) ->
  let fitted_state := snd (fit v docs emb0 (start self)) in
  let out := prepare_topic_data v corpus embeddings fitted_state in
  fst (fit v docs emb0 (start self)) = Ok self1
  /\ model_calls (snd out) = [CallFitTransform; CallTransform]
  /\ self_ (snd out) = self1
  /\ (forall res, fst out = Ok res ->
                  In ("corpus", VStrings corpus) res
                  /\ In ("document_topic_matrix", VArray m) res
                  /\ In ("document_representation", VArray e) res).
Proof.
  intros Hfit Hf Hm Hemb fitted_state out.
  assert (Hst : fit v docs emb0 (start self)
                = (Ok self1, {| self_ := self1; log := [CallFitTransform] |})).
  { unfold fit, call_fit_transform, bindM, emit, get_self. cbn.
    rewrite Hfit. reflexivity. }
  subst fitted_state out. rewrite Hst. cbn [fst snd].
  split; [reflexivity |].
  assert (Hatt : transform_attempt v corpus e self1 = Ok m)
    by (unfold transform_attempt; rewrite Hf; exact Hm).
  rewrite (prepare_topic_data_attempt v corpus _ Hemb)
    by (cbn [self_]; rewrite Hatt; reflexivity).
  cbn [self_]. rewrite Hatt.
  split; [| split].
  - rewrite assemble_state. unfold model_calls. cbn [log].
    destruct Hemb as [-> | [-> _]]; reflexivity.
  - rewrite assemble_state. reflexivity.
  - intros res Hres.
    destruct (assemble v corpus e m _) as [r st'] eqn:E. cbn in Hres. subst r.
    eapply assemble_entries, E.
Qed.

Lemma fit_then_prepare_topic_data_witness :
  model_calls
    (snd (prepare_topic_data (K := RefNumpy.kernels) inductive_variant
            ["a doc"] None
            (snd (fit inductive_variant ["a doc"; "b doc"] None
                    (start unfitted_model)))))
  = [CallFitTransform; CallTransform].
Proof.
  refine (proj1 (proj2
    (@fit_then_prepare_topic_data RefNumpy.kernels inductive_variant
       unfitted_model _ ["a doc"; "b doc"] None _ ["a doc"] None [[0%Q]] _ _
       eq_refl eq_refl eq_refl (or_intror (conj eq_refl eq_refl))))).
Defined.

(** X14.  When the embeddings are at hand and [transform] raises an error
    other than [AttributeError] and [NotFittedError], [prepare_topic_data]
    raises that error: it does not call [fit_transform] nor the
    vectorizer, and the learned state is unchanged. *)
Theorem prepare_topic_data_transform_error (K : Np.Kernels) (v : Variant)
    (corpus : list string) (embeddings : option Matrix) (e : Matrix)
    (st : State) (ex : Exn) :
  embeddings = Some e \/ (embeddings = None /\ encode v corpus = Ok e) ->
  transform_attempt v corpus e (self_ st) = Err ex ->
  is_AttributeError_or_NotFittedError ex = false ->
  prepare_topic_data v corpus embeddings st
  = (Err ex,
     {| self_ := self_ st;
        log := (log (after_embeddings embeddings st) ++ [CallTransform])%list |}).
Proof.
  intros Hemb Hatt Hex.
  rewrite (prepare_topic_data_attempt v corpus st Hemb)
    by (rewrite Hatt; exact Hex).
  rewrite Hatt. reflexivity.
Qed.

Lemma prepare_topic_data_transform_error_witness :
  prepare_topic_data (K := RefNumpy.kernels)
    {| transform := Some (fun _ _ _ => Err (ValueError "bad input"));
       fit_transform := fit_transform transductive_variant;
       encode := encode transductive_variant |}
    ["a doc"] (Some [[0%Q]]) (start six_term_model)
  = (Err (ValueError "bad input"),
     {| self_ := six_term_model; log := [CallTransform] |}).
Proof.
  apply (@prepare_topic_data_transform_error RefNumpy.kernels _ ["a doc"]
           (Some [[0%Q]]) [[0%Q]] (start six_term_model)
           (ValueError "bad input")).
  - left. reflexivity.
  - reflexivity.
  - reflexivity.
Defined.

(** X15.  [prepare_topic_data] calls the encoder exactly when no
    embeddings are passed, and before anything else; when the encoder
    raises, the error is raised with no call on the model or the
    vectorizer. *)
Theorem prepare_topic_data_encoder (K : Np.Kernels) (v : Variant)
    (corpus : list string) (self : Self) :
  (forall e,
      ~ In CallEncode
          (log (snd (prepare_topic_data v corpus (Some e) (start self)))))
  /\ (exists rest,
         log (snd (prepare_topic_data v corpus None (start self)))
         = CallEncode :: rest
         /\ ~ In CallEncode rest)
  /\ (forall ex,
         encode v corpus = Err ex ->
         prepare_topic_data v corpus None (start self)
         = (Err ex, {| self_ := self; log := [CallEncode] |})).
Proof.
  assert (Hlogs : forall embeddings e,
            embeddings = Some e \/ (embeddings = None /\ encode v corpus = Ok e) ->
            exists rest,
              log (snd (prepare_topic_data v corpus embeddings (start self)))
              = (log (after_embeddings embeddings (start self)) ++ rest)%list
              /\ ~ In CallEncode rest).
  { intros embeddings e Hemb.
    destruct (prepare_topic_data_state v corpus (start self) Hemb) as [_ Hlog].
    pose proof (transform_or_fit_run v corpus e
                  (after_embeddings embeddings (start self))) as Hrun.
    cbn zeta in Hrun.
    destruct (match transform_attempt v corpus e
                      (self_ (after_embeddings embeddings (start self))) with
              | Ok _ => false
              | Err ex => is_AttributeError_or_NotFittedError ex
              end);
      rewrite Hrun in Hlog; cbn [snd log] in Hlog;
      destruct Hlog as [-> | ->]; rewrite <- ?app_assoc;
      eexists; (split; [reflexivity | cbn; intuition discriminate]). }
  split; [| split].
  - intros e. destruct (Hlogs (Some e) e (or_introl eq_refl)) as (rest & -> & Hr).
    exact Hr.
  - destruct (encode v corpus) as [e | ex] eqn:Eenc.
    + destruct (Hlogs None e (or_intror (conj eq_refl eq_refl))) as (rest & -> & Hr).
      exists rest. split; [reflexivity | exact Hr].
    + exists []. unfold prepare_topic_data, encode_documents, bindM, emit, lift.
      cbn. rewrite Eenc. cbn. split; [reflexivity | intros []].
  - intros ex Hex.
    unfold prepare_topic_data, encode_documents, bindM, emit, lift.
    cbn. rewrite Hex. reflexivity.
Qed.

Lemma prepare_topic_data_encoder_witness :
  prepare_topic_data (K := RefNumpy.kernels)
    {| transform := None;
       fit_transform := fit_transform transductive_variant;
       encode := fun _ => Err (OtherError "no encoder") |}
    ["a doc"] None (start six_term_model)
  = (Err (OtherError "no encoder"),
     {| self_ := six_term_model; log := [CallEncode] |}).
Proof.
  apply (proj2 (proj2 (@prepare_topic_data_encoder RefNumpy.kernels _
                         ["a doc"] six_term_model))).
  reflexivity.
Defined.

(** ** [batched] *)




Example batched_run :
  batched ["a"; "b"; "c"; "d"; "e"] 2 = Ok [["a"; "b"]; ["c"; "d"]; ["e"]].
Proof. reflexivity. Qed.

(** ** Before any fit, and mismatched inputs *)

(** X17.  On a model that was never fitted (no [components_]) the
    reporting routines that read the topic-term matrix raise
    [AttributeError]: [get_topics], [topic_names], [get_feature_names_out],
    [_topics_table], and [_topic_distribution] even with a distribution.
    The ranking of documents against a passed matrix reads the label set
    only: it does not depend on the topic-term matrix or the vectorizer. *)
Theorem reporting_before_fit (K : Np.Kernels) (self : Self) :
  components_ self = None ->
  (forall top_k, get_topics self top_k = Err AttributeError)
  /\ topic_names self = Err AttributeError
  /\ get_feature_names_out self = Err AttributeError
  /\ (forall top_k show_scores,
         _topics_table self top_k show_scores = Err AttributeError)
  /\ (forall v text d top_k st,
         self_ st = self ->
         fst (_topic_distribution v text (Some d) top_k st) = Err AttributeError)
  /\ (forall self' topic_id raw_documents m top_k,
         classes_ self' = classes_ self ->
         rank_documents self' topic_id raw_documents m top_k
         = rank_documents self topic_id raw_documents m top_k).
Proof.
  intros Hc.
  assert (Hget : forall top_k, get_topics self top_k = Err AttributeError)
    by (intros top_k; unfold get_topics; rewrite Hc; reflexivity).
  split; [exact Hget |].
  split; [unfold topic_names; rewrite Hget; reflexivity |].
  split; [unfold get_feature_names_out; rewrite Hc; reflexivity |].
  split; [intros; unfold _topics_table; rewrite Hget; reflexivity |].
  split.
  - intros v text d top_k st Hst.
    unfold _topic_distribution, bindM, ret, get_self, lift. cbn.
    unfold rank_topics. rewrite Hst, Hget. reflexivity.
  - intros self' topic_id raw m top_k Hcl.
    unfold rank_documents, resolve_topic. rewrite Hcl. reflexivity.
Qed.

Lemma reporting_before_fit_witness :
  topic_names (K := RefNumpy.kernels) unfitted_model = Err AttributeError.
Proof.
  apply (proj1 (proj2 (@reporting_before_fit RefNumpy.kernels unfitted_model
                         eq_refl))).
Defined.

Lemma mapM_first_error {A B} (g : A -> Result B) (e : Exn) (l : list A) :
  (forall x, In x l -> is_ok (g x) = true \/ g x = Err e) ->
  (exists x, In x l /\ g x = Err e) ->
  mapM g l = Err e.
Proof.
  induction l as [| y l IH]; intros Hall (x & Hx & Hgx); [contradiction |].
  cbn [mapM].
  destruct (Hall y (or_introl eq_refl)) as [Hok | Herr].
  - destruct (g y) as [b |] eqn:Ey; [| discriminate].
    destruct Hx as [-> | Hx]; [congruence |].
    rewrite IH; [reflexivity | | eauto].
    intros z Hz. apply Hall. right. exact Hz.
  - rewrite Herr. reflexivity.
Qed.

(** X18.  When the distribution passed to [_topic_distribution] has more
    entries than the model has topic names and [top_k] covers all of them,
    the look-up of a name fails and the routine raises [IndexError]. *)
Theorem topic_distribution_too_long (K : Np.Kernels) (L : Np.Laws K)
    (v : Variant) (st : State) (text : option string) (names : list string)
    (dist : Vector) (top_k : Z) :
  topic_names (self_ st) = Ok names ->
  (List.length names < List.length dist)%nat ->
  Z.of_nat (List.length dist) <= top_k ->
  fst (_topic_distribution v text (Some dist) top_k st) = Err IndexError.
Proof.
  intros Hnames Hlen Hk.
  unfold _topic_distribution, bindM, ret, get_self, lift. cbn.
  unfold rank_topics. unfold topic_names in Hnames.
  destruct (get_topics (self_ st) 4) as [topic_desc |]; cbn [bind] in *;
    [| discriminate].
  inversion Hnames as [Hn]. rewrite Hn.
  rewrite slice_to_nonneg by lia.
  rewrite firstn_all2 by (rewrite argsort_length, length_neg; lia).
  pose proof (argsort_neg_bound dist) as Hb. rewrite Forall_forall in Hb.
  rewrite (@mapM_first_error _ _ _ IndexError); [reflexivity | |].
  - intros i Hi. rewrite (getitem_ok dist 0%Q (Hb _ Hi)). cbn [bind].
    unfold getitem. destruct (nth_error names i); cbn; auto.
  - exists (List.length names). split.
    + apply (Permutation_in _ (Permutation_sym (argsort_perm (Np.neg dist)))).
      apply in_seq. rewrite length_neg. lia.
    + rewrite (getitem_ok dist 0%Q Hlen). cbn [bind].
      unfold getitem.
      rewrite (proj2 (nth_error_None names (List.length names))) by lia.
      reflexivity.
Qed.

Lemma topic_distribution_too_long_witness :
  fst (_topic_distribution (K := RefNumpy.kernels) transductive_variant None
         (Some [1 # 2; 1 # 4; 1 # 4]%Q) 10 (start six_term_model))
  = Err IndexError.
Proof.
  apply (@topic_distribution_too_long RefNumpy.kernels ref_laws
           transductive_variant (start six_term_model) None
           ["-1_a_b_c_d"; "0_f_e_d_c"] [1 # 2; 1 # 4; 1 # 4]%Q 10).
  - vm_compute. reflexivity.
  - simpl. lia.
  - simpl. lia.
Defined.
